(** * CLToolBench baseline: the MCP copilot gateway

    A shallow embedding of [baseline/mcp_copilot]: the server descriptors of
    [schemas.py], the tool visibility registry of [tool_registry.py] and the
    [Router] of [router.py], followed by the properties established for them.

    Python dictionaries are finite maps ([gmap]), Python sets are finite sets
    ([gset]); code that raises is a function into [result]; the effects of
    [Router.call_tool] (lock, connection, remote call) are recorded as a
    trace of events. *)

From Stdlib Require Import ZArith DecimalString.
From stdpp Require Import gmap strings list fin_maps.

Local Open Scope string_scope.
#[local] Set Warnings "-clear-no-such-hyp".

(** ** Python values and exceptions *)

(** The exceptions the modelled code raises or lets through. *)
Inductive exn : Type :=
| ValueError (msg : string)
| ValidationError (msg : string)
| TypeError (msg : string)
| OSError (msg : string)
| JSONDecodeError (msg : string)
| RemoteError (msg : string)
| TimeoutError.

(** A computation that returns or raises. *)
Inductive result (A : Type) : Type :=
| Ok (a : A)
| Raise (e : exn).
Arguments Ok {A} a.
Arguments Raise {A} e.

Definition is_ok {A} (r : result A) : bool :=
  match r with Ok _ => true | Raise _ => false end.

Definition rbind {A B} (r : result A) (k : A -> result B) : result B :=
  match r with
  | Ok a => k a
  | Raise e => Raise e
  end.

#[global] Instance result_ret : MRet result := fun A a => Ok a.
#[global] Instance result_bind : MBind result := fun A B k r => rbind r k.

(** Truth value of a [str | None]: [None] and the empty string are falsy. *)
Definition truthy (o : option string) : bool :=
  match o with
  | None => false
  | Some s => negb (String.eqb s "")
  end.

(** ** Python values of type [Any] *)

(** A Python value of type [Any], as far as this code passes one around. *)
#[local] Unset Elimination Schemes.
Inductive pyval : Type :=
| PyNone
| PyBool (b : bool)
| PyInt (z : Z)
| PyStr (s : string)
| PyList (l : list pyval)
| PyDict (d : list (string * pyval)).
#[local] Set Elimination Schemes.

Abbreviation pydict := (list (string * pyval)).

(** [d.get(key)] on a dictionary value. *)
Fixpoint assoc_get (key : string) (d : pydict) : option pyval :=
  match d with
  | [] => None
  | (k, v) :: d' => if String.eqb k key then Some v else assoc_get key d'
  end.

Definition dict_get (key : string) (v : pyval) : option pyval :=
  match v with
  | PyDict d => assoc_get key d
  | _ => None
  end.

(** ** schemas.py *)

Module Schemas.

(** [mcp.types.Tool]: only the name is read by this code base. *)
Record Tool : Type := { tool_name : string }.

Record ServerConfig : Type := {
  command : option string;
  args : list string;
  env : list (string * string);
  url : option string;
  headers : pydict
}.

(** The field validation that pydantic runs for the annotations of
    [ServerConfig] on the keyword arguments [d]: a missing key takes the
    default of its field, a value of another type than the annotated one is
    refused, keys that name no field are ignored. *)
Definition field_str_or_none (key : string) (d : pydict) : result (option string) :=
  match assoc_get key d with
  | None | Some PyNone => Ok None
  | Some (PyStr s) => Ok (Some s)
  | Some _ => Raise (ValidationError (key +:+ ": Input should be a valid string"))
  end.

Fixpoint all_str (key : string) (l : list pyval) : result (list string) :=
  match l with
  | [] => Ok []
  | PyStr s :: l' => rbind (all_str key l') (fun r => Ok (s :: r))
  | _ :: _ => Raise (ValidationError (key +:+ ": Input should be a valid string"))
  end.

Fixpoint all_str_values (key : string) (d : pydict) : result (list (string * string)) :=
  match d with
  | [] => Ok []
  | (k, PyStr s) :: d' => rbind (all_str_values key d') (fun r => Ok ((k, s) :: r))
  | _ :: _ => Raise (ValidationError (key +:+ ": Input should be a valid string"))
  end.

Definition field_list_str (key : string) (d : pydict) : result (list string) :=
  match assoc_get key d with
  | None => Ok []
  | Some (PyList l) => all_str key l
  | Some _ => Raise (ValidationError (key +:+ ": Input should be a valid list"))
  end.

Definition field_dict_str (key : string) (d : pydict) : result (list (string * string)) :=
  match assoc_get key d with
  | None => Ok []
  | Some (PyDict m) => all_str_values key m
  | Some _ => Raise (ValidationError (key +:+ ": Input should be a valid dictionary"))
  end.

Definition field_dict_any (key : string) (d : pydict) : result pydict :=
  match assoc_get key d with
  | None => Ok []
  | Some (PyDict m) => Ok m
  | Some _ => Raise (ValidationError (key +:+ ": Input should be a valid dictionary"))
  end.

Definition validate_fields (d : pydict) : result ServerConfig :=
  rbind (field_str_or_none "command" d) (fun command =>
  rbind (field_list_str "args" d) (fun args =>
  rbind (field_dict_str "env" d) (fun env =>
  rbind (field_str_or_none "url" d) (fun url =>
  rbind (field_dict_any "headers" d) (fun headers =>
  Ok {| command := command; args := args; env := env; url := url;
        headers := headers |}))))).

(** The [model_validator(mode="after")] of [ServerConfig]. *)
Definition check_command_or_url (self : ServerConfig) : result ServerConfig :=
  if negb (truthy (command self)) && negb (truthy (url self))
  then Raise (ValidationError "Either 'command' or 'url' must be provided")
  else Ok self.

(** Constructing a [ServerConfig] from the unpacked [config_data], which
    has to be a mapping: the fields are validated and stored, then the
    validator runs. *)
Definition ServerConfig_new (config_data : pyval) : result ServerConfig :=
  match config_data with
  | PyDict d => rbind (validate_fields d) check_command_or_url
  | _ => Raise (TypeError "argument after ** must be a mapping")
  end.

Record Server : Type := {
  name : string;
  description : option string;
  config : ServerConfig;
  tools : option (list Tool)
}.

(** [Server(name=name, config=cfg)]: the other fields take their defaults. *)
Definition Server_new (n : string) (cfg : ServerConfig) : Server :=
  {| name := n; description := None; config := cfg; tools := None |}.

End Schemas.

(** ** tool_registry.py *)

Module ToolRegistry.
Import Schemas.

(** [self._registry : dict[str, set[str]]]. Every method runs under
    [self._lock], so each one is a single atomic transition of this map. *)
Abbreviation registry := (gmap string (gset string)).

(** [__init__]: the empty dictionary. *)
Definition init : registry := ∅.

(** The size of the initially exposed prefix, [K = 3] in the source. *)
Definition K : nat := 3.

(** The set stored for one server by the loop body of
    [initialize_from_servers]. *)
Definition initial_set (server : Server) : gset string :=
  let tools := default [] (tools server) in
  let tool_names := map tool_name (take K tools) in
  list_to_set tool_names.

Definition initialize_from_servers
    (self : registry) (servers : gmap string Server) : registry :=
  map_fold (fun name server reg => <[name := initial_set server]> reg)
           self servers.

Definition expose_tool (self : registry) (server_name tool_name : string)
  : registry :=
  <[server_name := {[tool_name]} ∪ default ∅ (self !! server_name)]> self.

Definition hide_tool (self : registry) (server_name tool_name : string)
  : registry :=
  match self !! server_name with
  | Some s => <[server_name := s ∖ {[tool_name]}]> self
  | None => self
  end.

Definition list_exposed (self : registry) (server_name : string)
  : list string :=
  elements (default ∅ (self !! server_name)).

Definition is_exposed (self : registry) (server_name tool_name : string)
  : bool :=
  bool_decide (tool_name ∈ default ∅ (self !! server_name)).

End ToolRegistry.

(** ** router.py *)

Module Router.
Import Schemas.

(** *** Values exchanged with the collaborators *)

(** [mcp.types.TextContent] and [mcp.types.CallToolResult]. The [type] of
    a text content is always ["text"] and is not stored. *)
Record TextContent : Type := { text : string }.

(** [types.TextContent(type=..., text=...)]: the field [type] is declared
    [Literal["text"]] without default, so leaving it out, or giving another
    value, is refused by the field validation. *)
Definition TextContent_new (type_arg : option string) (text_arg : string)
  : result TextContent :=
  match type_arg with
  | None => Raise (ValidationError "type: Field required")
  | Some ty =>
      if String.eqb ty "text" then Ok {| text := text_arg |}
      else Raise (ValidationError "type: Input should be 'text'")
  end.
Record CallToolResult : Type := {
  isError : bool;
  content : list TextContent
}.

(** *** The collaborators of the router *)

(** A [ToolMatcher] instance (module [matcher], whose source is not at
    hand): the three methods the router calls, left arbitrary. *)
Record ToolMatcher : Type := {
  setup_openai_client : option string -> string -> result unit;
  load_data : string -> result unit;
  match_ : string -> pyval
}.

(** The process environment, the file system and the matcher class, as
    [Router.__init__] reads them. [load_json p] stands for opening [p] and
    [json.load]; the document it yields is reduced to its ["mcpServers"]
    entry, the only one read, given by its items. [int_of_str] is the
    builtin [int] on a string: the integer it denotes, or [None] where
    [int] raises [ValueError]. *)
Record ConfigDoc : Type := {
  mcpServers : option (list (string * pyval))
}.

Record Platform : Type := {
  PROJECT_ROOT : string;
  getenv : string -> option string;
  int_of_str : string -> option Z;
  path_exists : string -> bool;
  load_json : string -> result ConfigDoc;
  ToolMatcher_new : option string -> Z -> Z -> Z -> result ToolMatcher
}.

(** The [config] argument of the constructor: a dictionary, a [Path], or
    anything else. *)
Inductive ConfigArg : Type :=
| CfgDict (d : ConfigDoc)
| CfgPath (p : string)
| CfgOther.

Definition path_join (dir file : string) : string := dir +:+ "/" +:+ file.

Definition _default_config_path (P : Platform) : string :=
  path_join (path_join (PROJECT_ROOT P) "config") "clean_config.json".

(** [int(x)] for [x] a string or [None]. *)
Definition py_int (P : Platform) (o : option string) : result Z :=
  match o with
  | None => Raise (TypeError "int() argument must be a string, a bytes-like object or a real number, not 'NoneType'")
  | Some s =>
      match int_of_str P s with
      | Some z => Ok z
      | None => Raise (ValueError ("invalid literal for int() with base 10: '" +:+ s +:+ "'"))
      end
  end.

(** [int(os.getenv(key, dflt))] with an integer default. *)
Definition py_int_default (P : Platform) (o : option string) (dflt : Z)
  : result Z :=
  match o with
  | None => Ok dflt
  | Some _ => py_int P o
  end.

(** [str(x)] inside an f-string, for [x] a string or [None]. *)
Definition py_str (o : option string) : string := default "None" o.

(** *** The router object *)

Record Router : Type := {
  servers : gmap string Server;
  config : ConfigDoc;
  matcher : ToolMatcher
}.

(** The loop over [self.config.get("mcpServers", {}).items()]. *)
Fixpoint load_servers (items : list (string * pyval))
    (acc : gmap string Server) : result (gmap string Server) :=
  match items with
  | [] => Ok acc
  | (name, config_data) :: rest =>
      cfg ← ServerConfig_new config_data;
      load_servers rest (<[name := Server_new name cfg]> acc)
  end.

(** The matcher data path of [Router.__init__]: [MCP_DATA_PATH], or the
    default built from the model names. *)
Definition data_path (P : Platform) : string :=
  let default_data_path :=
    path_join (path_join (PROJECT_ROOT P) "config")
      ("mcp_arg_" +:+ py_str (getenv P "EMBEDDING_MODEL") +:+ "_"
         +:+ py_str (getenv P "ABSTRACT_MODEL") +:+ ".json") in
  default default_data_path (getenv P "MCP_DATA_PATH").

(** [Router.__init__]. When the catalog path does not exist the source logs
    a warning and continues with an empty server list. *)
Definition Router_new (P : Platform) (config : ConfigArg) : result Router :=
  cfg ← match config with
        | CfgDict d => Ok d
        | CfgPath p =>
            if path_exists P p then load_json P p
            else Ok {| mcpServers := Some [] |}
        | CfgOther =>
            Raise (ValueError "Config must be a dictionary or a Path to a JSON file.")
        end;
  srvs ← load_servers (default [] (mcpServers cfg)) ∅;
  dimensions ← py_int P (getenv P "EMBEDDING_DIMENSIONS");
  top_servers ← py_int_default P (getenv P "TOP_SERVERS") 5;
  top_tools ← py_int_default P (getenv P "TOP_TOOLS") 3;
  m ← ToolMatcher_new P (getenv P "EMBEDDING_MODEL") dimensions top_servers top_tools;
  let base_url := getenv P "EMBEDDING_BASE_URL" in
  let api_key := getenv P "EMBEDDING_API_KEY" in
  let data_path := data_path P in
  if negb (truthy api_key) then
    Raise (ValueError "EMBEDDING_API_KEY environment variable not set.")
  else if String.eqb data_path "" || negb (path_exists P data_path) then
    Raise (ValueError ("MCP_DATA_PATH not set or file not found at: " +:+ data_path))
  else
    _ ← setup_openai_client m base_url (default "" api_key);
    _ ← load_data m data_path;
    Ok {| servers := srvs; config := cfg; matcher := m |}.

(** [Router.route]. *)
Definition route (self : Router) (query : string) : pyval :=
  match_ (matcher self) query.

(** *** Effects of a call: the dispatch lock and the connection *)

(** What a call does that can be observed from outside, in order: the
    lock is taken and released, the connection context is entered, fails
    to be entered, and is left, and [asyncio.wait_for] is awaited on the
    remote call with its deadline. *)
Inductive event : Type :=
| LockAcquire
| LockRelease
| ConnOpen (server : string)
| ConnOpenFailed (server : string)
| ConnClose (server : string)
| Invoke (server tool : string) (params : pydict) (timeout : Z).

(** How a coroutine ends: it returns, it raises, or it never resumes. *)
Inductive outcome (A : Type) : Type :=
| Returns (a : A)
| Raises (e : exn)
| Pending.
Arguments Returns {A} a.
Arguments Raises {A} e.
Arguments Pending {A}.

Definition run (A : Type) : Type := (list event * outcome A)%type.

(** An expression that returns or raises, as the end of a coroutine. *)
Definition outcome_of {A} (r : result A) : outcome A :=
  match r with
  | Ok a => Returns a
  | Raise e => Raises e
  end.

(** The exit half of [async with]: runs on return and on exception, and
    lets either through. *)
Definition on_exit {A} (body : run A) (ev : event) : run A :=
  match body with
  | (tr, Pending) => (tr, Pending)
  | (tr, o) => ((tr ++ [ev])%list, o)
  end.

(** [async with self.connection_lock: body]. *)
Definition with_connection_lock {A} (body : run A) : run A :=
  let '(tr, o) := on_exit body LockRelease in (LockAcquire :: tr, o).

(** How entering a connection ends. *)
Inductive open_outcome : Type :=
| Opened
| OpenRaises (e : exn)
| OpenPending.

(** Modelled from the spec: the class [MCPConnection] of module
    [mcp_connection], whose source is not at hand. Its two fields are left
    arbitrary: entering the context for a server, and
    [asyncio.wait_for(connection.call_tool(tool, params), timeout)], which
    returns the remote result, raises what the remote call raised, or raises
    [TimeoutError] once the deadline passes. Leaving the context follows the
    Connection Lifecycle contract: the connection is released, the exit
    itself does not fail and it suppresses no exception. *)
Record MCPConnection : Type := {
  aenter : Server -> open_outcome;
  wait_for_call_tool : Server -> string -> pydict -> Z -> result CallToolResult
}.

(** [async with MCPConnection(server_config) as connection: body]; [s] is
    the catalog key of [server_config], used to label the events.
    [ConnOpen] is the entry into the context, [ConnClose] its exit. *)
Definition with_connection {A} (C : MCPConnection) (s : string)
    (server_config : Server) (body : run A) : run A :=
  match aenter C server_config with
  | Opened => let '(tr, o) := on_exit body (ConnClose s) in (ConnOpen s :: tr, o)
  | OpenRaises e => ([ConnOpen s; ConnOpenFailed s], Raises e)
  | OpenPending => ([ConnOpen s], Pending)
  end.

(** [params or {}]. *)
Definition params_or_empty (params : option pydict) : pydict :=
  default [] params.

Definition DEFAULT_TIMEOUT : Z := 300.

Definition timed_out_message (tool_name server_name : string) : string :=
  "Tool " +:+ tool_name +:+ " in " +:+ server_name +:+ " call timed out.".

(** The expression of the [except asyncio.TimeoutError] branch:
    [types.CallToolResult(isError=True, content=[types.TextContent(text=...)])].
    The text content is built without its [type]. *)
Definition timed_out_result (tool_name server_name : string)
  : result CallToolResult :=
  rbind (TextContent_new None (timed_out_message tool_name server_name))
    (fun c => Ok {| isError := true; content := [c] |}).

Definition unknown_server_message (server_name : string) : string :=
  "Server '" +:+ server_name +:+ "' is not defined in the configuration.".

(** [Router.call_tool]. [timeout = None] is the argument left out. *)
Definition call_tool (self : Router) (C : MCPConnection)
    (server_name tool_name : string) (params : option pydict)
    (timeout : option Z) : run CallToolResult :=
  let timeout := default DEFAULT_TIMEOUT timeout in
  with_connection_lock
    match servers self !! server_name with
    | None => ([], Raises (ValueError (unknown_server_message server_name)))
    | Some server_config =>
        with_connection C server_name server_config
          (let args := params_or_empty params in
           let call := [Invoke server_name tool_name args timeout] in
           match wait_for_call_tool C server_config tool_name args timeout with
           | Ok result => (call, Returns result)
           | Raise TimeoutError =>
               (call, outcome_of (timed_out_result tool_name server_name))
           | Raise e => (call, Raises e)
           end)
    end.

(** [Router.aclose]: the body is [pass]. *)
Definition aclose (self : Router) : run unit := ([], Returns ()).

(** [Router.__aenter__] returns the router itself. *)
Definition Router_aenter (self : Router) : run Router := ([], Returns self).

(** [Router.__aexit__] awaits [aclose] and returns [None], so that an
    exception of the body is not suppressed. *)
Definition Router_aexit (self : Router) : run unit := aclose self.

(** [async with router as r: body]. *)
Definition with_router {A} (self : Router) (body : Router -> run A) : run A :=
  match Router_aenter self with
  | (tr0, Returns r) =>
      match body r with
      | (tr, Pending) => ((tr0 ++ tr)%list, Pending)
      | (tr, o) =>
          match Router_aexit r with
          | (tr1, Returns _) => ((tr0 ++ tr ++ tr1)%list, o)
          | (tr1, Raises e) => ((tr0 ++ tr ++ tr1)%list, Raises e)
          | (tr1, Pending) => ((tr0 ++ tr ++ tr1)%list, Pending)
          end
      end
  | (tr0, Raises e) => (tr0, Raises e)
  | (tr0, Pending) => (tr0, Pending)
  end.

End Router.

(** ** Concurrent callers of [Router.call_tool] *)

Module Dispatch.
Import Schemas Router.

(** The arguments of one [call_tool] invocation. *)
Record invocation : Type := {
  inv_server : string;
  inv_tool : string;
  inv_params : option pydict;
  inv_timeout : option Z
}.

(** A task running one invocation: the events it has performed and the
    ones it still has to perform. Every event is a point where the event
    loop may switch to another task. *)
Record task : Type := {
  done : list event;
  todo : list event
}.

(** The tasks of one router and the state of its [connection_lock]. *)
Record system : Type := {
  locked : bool;
  tasks : list task
}.

Definition spawn (self : Router) (C : MCPConnection) (i : invocation) : task :=
  {| done := [];
     todo := fst (call_tool self C (inv_server i) (inv_tool i)
                    (inv_params i) (inv_timeout i)) |}.

Definition initial (self : Router) (C : MCPConnection)
    (invs : list invocation) : system :=
  {| locked := false; tasks := spawn self C <$> invs |}.

(** [asyncio.Lock]: acquiring waits while the lock is held. *)
Definition enabled (l : bool) (e : event) : bool :=
  match e with
  | LockAcquire => negb l
  | _ => true
  end.

Definition lock_after (l : bool) (e : event) : bool :=
  match e with
  | LockAcquire => true
  | LockRelease => false
  | _ => l
  end.

Inductive step : system -> system -> Prop :=
| step_event (σ : system) (i : nat) (d : list event) (e : event)
    (rest : list event) :
    tasks σ !! i = Some {| done := d; todo := e :: rest |} ->
    enabled (locked σ) e = true ->
    step σ {| locked := lock_after (locked σ) e;
              tasks := <[i := {| done := (d ++ [e])%list; todo := rest |}]> (tasks σ) |}.

Definition reachable (self : Router) (C : MCPConnection)
    (invs : list invocation) (σ : system) : Prop :=
  rtc step (initial self C invs) σ.

(** The same transition as a function: task [i] performs its next event,
    unless it has none or has to wait for the lock. *)
Definition perform (σ : system) (i : nat) : option system :=
  match tasks σ !! i with
  | Some {| done := d; todo := e :: rest |} =>
      if enabled (locked σ) e
      then Some {| locked := lock_after (locked σ) e;
                   tasks := <[i := {| done := (d ++ [e])%list; todo := rest |}]> (tasks σ) |}
      else None
  | _ => None
  end.

(** Running a schedule: the tasks named in [order] move one after another. *)
Fixpoint schedule (σ : system) (order : list nat) : option system :=
  match order with
  | [] => Some σ
  | i :: order' =>
      match perform σ i with
      | Some σ' => schedule σ' order'
      | None => None
      end
  end.







(** The number of events the tasks still have to perform. *)
Definition remaining (σ : system) : nat :=
  sum_list (length ∘ todo <$> tasks σ).

(** Whether a task that performed [d] holds the lock, and whether its
    connection is open (entered, and neither failed nor closed). *)
Definition holds_lock (d : list event) : bool :=
  fold_left lock_after d false.

Definition conn_after (c : bool) (e : event) : bool :=
  match e with
  | ConnOpen _ => true
  | ConnOpenFailed _ | ConnClose _ => false
  | _ => c
  end.

Definition connection_open (d : list event) : bool :=
  fold_left conn_after d false.

(** Where a task stands inside [call_tool]. *)
Inductive phase : Type :=
| Idle
| InLock
| InConnection
| Finished.

Definition phase_step (p : phase) (e : event) : option phase :=
  match p, e with
  | Idle, LockAcquire => Some InLock
  | InLock, ConnOpen _ => Some InConnection
  | InLock, LockRelease => Some Finished
  | InConnection, Invoke _ _ _ _ => Some InConnection
  | InConnection, ConnOpenFailed _ => Some InLock
  | InConnection, ConnClose _ => Some InLock
  | _, _ => None
  end.

Fixpoint phase_run (p : phase) (l : list event) : option phase :=
  match l with
  | [] => Some p
  | e :: l' =>
      match phase_step p e with
      | Some p' => phase_run p' l'
      | None => None
      end
  end.

Definition phase_holds (p : phase) : bool :=
  match p with
  | InLock | InConnection => true
  | _ => false
  end.

Definition phase_open (p : phase) : bool :=
  match p with
  | InConnection => true
  | _ => false
  end.

(** The invariant of the interleaved system. *)
Record invariant (σ : system) : Prop := {
  inv_phase : forall i t, tasks σ !! i = Some t ->
    exists p, phase_run Idle (done t) = Some p /\ is_Some (phase_run p (todo t));
  inv_free : locked σ = false ->
    forall i t, tasks σ !! i = Some t -> holds_lock (done t) = false;
  inv_excl : forall i j ti tj, i <> j ->
    tasks σ !! i = Some ti -> tasks σ !! j = Some tj ->
    holds_lock (done ti) = true -> holds_lock (done tj) = false
}.

End Dispatch.

(** ** Scenarios and statements used below *)

Module Scenario.
Import Schemas ToolRegistry Router Dispatch.

Definition launch (cmd : string) : ServerConfig :=
  {| command := Some cmd; args := []; env := []; url := None; headers := [] |}.


Definition no_form : ServerConfig :=
  {| command := None; args := []; env := []; url := Some ""; headers := [] |}.

(** The same descriptors as the dictionaries a catalog holds, and one
    whose [args] is a string instead of a list. *)
Definition launch_data (cmd : string) : pyval := PyDict [("command", PyStr cmd)].

Definition both_forms_data : pyval :=
  PyDict [("command", PyStr "npx"); ("args", PyList [PyStr "files-server"]);
          ("url", PyStr "http://localhost:8000/mcp")].

Definition no_form_data : pyval := PyDict [("url", PyStr "")].

Definition ill_typed_data : pyval :=
  PyDict [("command", PyStr "npx"); ("args", PyStr "--stdio")].

(** [int] on plain decimal literals, for the environments below. *)
Definition decimal (s : string) : option Z :=
  option_map Z.of_int (NilZero.int_of_string s).

Definition tool (n : string) : Tool := {| tool_name := n |}.

(** The server of the end-to-end scenario: [files] with three tools. *)
Definition files_server : Server :=
  {| name := "files"; description := None;
     Schemas.config := launch "files-server";
     tools := Some [tool "read"; tool "write"; tool "delete"] |}.

(** A server reporting four tools. *)
Definition four_tools (a b c d : string) : Server :=
  {| name := "srv"; description := None; Schemas.config := launch "srv";
     tools := Some [tool a; tool b; tool c; tool d] |}.

Definition candidate (server tool : string) (score : Z) : pyval :=
  PyDict [("server_name", PyStr server); ("tool_name", PyStr tool);
          ("score", PyInt score)].

Definition files_matches : list pyval :=
  [candidate "files" "read" 9; candidate "files" "write" 8;
   candidate "files" "delete" 7].

(** A matcher stub that ranks the three tools for every query. *)
Definition stub_matcher : ToolMatcher :=
  {| setup_openai_client := fun _ _ => Ok ();
     load_data := fun _ => Ok ();
     match_ := fun _ => PyDict [("success", PyBool true);
                                ("matched_tools", PyList files_matches)] |}.

Definition files_router : Router.Router :=
  {| servers := {["files" := files_server]};
     config := {| mcpServers := Some [("files", launch_data "files-server")] |};
     matcher := stub_matcher |}.

Definition payload : CallToolResult :=
  {| isError := false; content := [ {| text := "ok" |} ] |}.

(** A connection stub that opens and answers at once. *)
Definition stub_connection : MCPConnection :=
  {| aenter := fun _ => Opened;
     wait_for_call_tool := fun _ _ _ _ => Ok payload |}.

(** A connection whose remote call needs 500 time units. *)
Definition slow_connection : MCPConnection :=
  {| aenter := fun _ => Opened;
     wait_for_call_tool := fun _ _ _ timeout =>
       if (timeout <? 500)%Z then Raise TimeoutError else Ok payload |}.

(** A connection that never finishes opening. *)
Definition stuck_connection : MCPConnection :=
  {| aenter := fun _ => OpenPending;
     wait_for_call_tool := fun _ _ _ _ => Ok payload |}.

(** The registry of the scenario, with [delete] hidden. *)
Definition files_registry : registry :=
  hide_tool (initialize_from_servers ToolRegistry.init {["files" := files_server]})
            "files" "delete".

(** A process environment with every setting present. *)
Definition full_env (key : string) : option string :=
  if String.eqb key "EMBEDDING_MODEL" then Some "embed-small"
  else if String.eqb key "EMBEDDING_DIMENSIONS" then Some "1024"
  else if String.eqb key "EMBEDDING_API_KEY" then Some "sk-test"
  else if String.eqb key "ABSTRACT_MODEL" then Some "abstract"
  else if String.eqb key "MCP_DATA_PATH" then Some "/data/index.json"
  else None.


(** A platform with the given files; [catalog] tells what
    reading an existing catalog would give. *)
Definition platform (env : string -> option string)
    (files : list string) (catalog : result ConfigDoc) : Platform :=
  {| PROJECT_ROOT := "/app";
     getenv := env;
     int_of_str := decimal;
     path_exists := fun p => bool_decide (p ∈ files);
     load_json := fun _ => catalog;
     ToolMatcher_new := fun _ _ _ _ => Ok stub_matcher |}.

(** A catalog with the [files] server, a platform on which construction
    succeeds, and the router that results. *)
Definition files_catalog : ConfigDoc :=
  {| mcpServers := Some [("files", launch_data "files-server")] |}.

Definition files_platform : Platform :=
  platform full_env ["/data/index.json"] (Ok {| mcpServers := None |}).

Definition built_router : Router.Router :=
  {| servers := {["files" := Server_new "files" (launch "files-server")]};
     config := files_catalog;
     matcher := stub_matcher |}.

(** The same environment without [MCP_DATA_PATH], on a platform that has
    the default data file. *)
Definition default_path_env (key : string) : option string :=
  if String.eqb key "MCP_DATA_PATH" then None else full_env key.

Definition default_path_platform : Platform :=
  platform default_path_env ["/app/config/mcp_arg_embed-small_abstract.json"]
    (Ok {| mcpServers := None |}).

(** Two callers of the same tool on the same server. *)
Definition read_x : invocation :=
  {| inv_server := "files"; inv_tool := "read";
     inv_params := Some [("path", PyStr "x")]; inv_timeout := None |}.

Definition two_callers : system := initial files_router stub_connection [read_x; read_x].

(** The first caller has taken the lock and opened its connection. *)
Definition first_connected : system :=
  {| locked := true;
     tasks := [ {| done := [LockAcquire; ConnOpen "files"];
                   todo := [Invoke "files" "read" [("path", PyStr "x")] 300;
                            ConnClose "files"; LockRelease] |};
                {| done := [];
                   todo := [LockAcquire; ConnOpen "files";
                            Invoke "files" "read" [("path", PyStr "x")] 300;
                            ConnClose "files"; LockRelease] |} ] |}.




(** Two callers on a router whose connection never opens: the first has
    taken the lock and is stuck entering the connection. *)
Definition first_stuck : system :=
  {| locked := true;
     tasks := [ {| done := [LockAcquire; ConnOpen "files"]; todo := [] |};
                {| done := []; todo := [LockAcquire; ConnOpen "files"] |} ] |}.

(** *** The statements of the specification that the code is compared with *)

(** Visibility gate: a call to a tool that is not exposed returns an error
    outcome and opens no connection. *)
Definition visibility_gate (self : Router.Router) (C : MCPConnection)
    (reg : registry) (s t : string) (params : option pydict)
    (timeout : option Z) : Prop :=
  is_exposed reg s t = false ->
  exists r, snd (call_tool self C s t params timeout) = Returns r
            /\ isError r = true
            /\ forall s', ConnOpen s' ∉ fst (call_tool self C s t params timeout).

Definition list_under (key : string) (v : pyval) : option (list pyval) :=
  match dict_get key v with
  | Some (PyList l) => Some l
  | _ => None
  end.

Definition candidate_exposed (reg : registry) (c : pyval) : bool :=
  match dict_get "server_name" c, dict_get "tool_name" c with
  | Some (PyStr s), Some (PyStr t) => is_exposed reg s t
  | _, _ => false
  end.

(** Partition: the route result carries the candidates split into
    [visible] and [hidden] by exposure, and [success: true]. *)
Definition route_partitions (self : Router.Router) (reg : registry)
    (query : string) : Prop :=
  exists matched vis hid,
    list_under "matched_tools" (match_ (matcher self) query) = Some matched
    /\ list_under "visible" (route self query) = Some vis
    /\ list_under "hidden" (route self query) = Some hid
    /\ vis = filter (fun c => candidate_exposed reg c = true) matched
    /\ hid = filter (fun c => candidate_exposed reg c = false) matched
    /\ length vis + length hid = length matched
    /\ dict_get "success" (route self query) = Some (PyBool true).


(** Unknown server: the call returns an error outcome instead of raising. *)
Definition unknown_server_is_returned (self : Router.Router)
    (C : MCPConnection) (s t : string) (params : option pydict)
    (timeout : option Z) : Prop :=
  servers self !! s = None ->
  exists r, snd (call_tool self C s t params timeout) = Returns r
            /\ isError r = true.



(** Initialisation with a first-2 policy on tools [a,b,c,d]. *)
Definition first_two_exposed (reg : registry) (s a b c : string) : Prop :=
  reg !! s = Some ({[a; b]} : gset string) /\ is_exposed reg s c = false.

(** Initialisation replaces the stored state as a whole. *)
Definition full_replace (reg : registry) (catalog : gmap string Server) : Prop :=
  initialize_from_servers reg catalog = initialize_from_servers ToolRegistry.init catalog.

End Scenario.

(** * Properties *)

(** ** The tool visibility registry *)

Section RegistryFacts.
Import Schemas ToolRegistry Scenario.
Implicit Types (reg : registry) (s t : string).

Lemma exposed_set_expose reg s t :
  default ∅ (expose_tool reg s t !! s) = {[t]} ∪ default ∅ (reg !! s).
Proof. unfold expose_tool. by rewrite lookup_insert_eq. Qed.

Lemma exposed_set_hide reg s t :
  default ∅ (hide_tool reg s t !! s) = default ∅ (reg !! s) ∖ {[t]}.
Proof.
  unfold hide_tool. destruct (reg !! s) as [x|] eqn:E.
  - by rewrite lookup_insert_eq.
  - rewrite E. simpl. set_solver.
Qed.

Lemma lookup_expose_other reg s s' t :
  s ≠ s' -> expose_tool reg s t !! s' = reg !! s'.
Proof. intros. unfold expose_tool. by rewrite lookup_insert_ne. Qed.

Lemma lookup_hide_other reg s s' t :
  s ≠ s' -> hide_tool reg s t !! s' = reg !! s'.
Proof.
  intros. unfold hide_tool. destruct (reg !! s); [|done].
  by rewrite lookup_insert_ne.
Qed.

Lemma is_exposed_true reg s t :
  is_exposed reg s t = true <-> t ∈ default ∅ (reg !! s).
Proof. unfold is_exposed. apply bool_decide_eq_true. Qed.

Lemma is_exposed_false reg s t :
  is_exposed reg s t = false <-> t ∉ default ∅ (reg !! s).
Proof. unfold is_exposed. apply bool_decide_eq_false. Qed.

Lemma hide_absent reg s t : is_exposed reg s t = false -> hide_tool reg s t = reg.
Proof.
  rewrite is_exposed_false. unfold hide_tool.
  destruct (reg !! s) as [x|] eqn:E; [|done]. simpl. intros Hn.
  apply insert_id. rewrite E. f_equal. set_solver.
Qed.

(** The entry stored for [s] after initialisation: the first [K] tools of
    [s] when the catalog has [s], the previous entry otherwise. *)
Lemma lookup_initialize reg (catalog : gmap string Server) s :
  initialize_from_servers reg catalog !! s =
    match catalog !! s with
    | Some server => Some (initial_set server)
    | None => reg !! s
    end.
Proof.
  unfold initialize_from_servers.
  apply (map_fold_weak_ind (fun (r : registry) (m : gmap string Server) =>
    r !! s = match m !! s with
             | Some server => Some (initial_set server)
             | None => reg !! s
             end)).
  - by rewrite lookup_empty.
  - intros i x m r _ IH. destruct (decide (i = s)) as [->|Hne].
    + by rewrite !lookup_insert_eq.
    + by rewrite !lookup_insert_ne.
Qed.

Lemma initialize_twice reg (catalog : gmap string Server) :
  initialize_from_servers (initialize_from_servers reg catalog) catalog
  = initialize_from_servers reg catalog.
Proof.
  apply map_eq. intros s. rewrite !lookup_initialize.
  by destruct (catalog !! s).
Qed.

Lemma initial_set_four a b c d :
  initial_set (four_tools a b c d) = {[a; b; c]}.
Proof. unfold initial_set. simpl. set_solver. Qed.

End RegistryFacts.

Section RegistryClaims.
Import Schemas ToolRegistry Scenario.
Implicit Types (reg : registry) (s t : string).

(** C9: right after [expose_tool s t] the tool is exposed, is listed by
    [list_exposed s], and the server has an entry (created when there was
    none); right after [hide_tool s t] the tool is not exposed, and
    [hide_tool] leaves the registry as it was when the tool was not
    exposed. *)
Theorem expose_then_hide_postconditions reg s t :
  is_exposed (expose_tool reg s t) s t = true
  /\ t ∈ list_exposed (expose_tool reg s t) s
  /\ is_Some (expose_tool reg s t !! s)
  /\ is_exposed (hide_tool reg s t) s t = false
  /\ (is_exposed reg s t = false -> hide_tool reg s t = reg).
Proof.
  split_and!.
  - apply is_exposed_true. rewrite exposed_set_expose. set_solver.
  - unfold list_exposed. rewrite exposed_set_expose. set_solver.
  - unfold expose_tool. rewrite lookup_insert_eq. by eexists.
  - apply is_exposed_false. rewrite exposed_set_hide. set_solver.
  - apply hide_absent.
Qed.

Lemma expose_then_hide_postconditions_witness :
  is_exposed (expose_tool ToolRegistry.init "files" "read") "files" "read" = true
  /\ hide_tool ToolRegistry.init "files" "read" = ToolRegistry.init.
Proof.
  destruct (expose_then_hide_postconditions ToolRegistry.init "files" "read")
    as (He & _ & _ & _ & Hnoop).
  split; [exact He | apply Hnoop; vm_compute; reflexivity].
Defined.

(** C10: [expose_tool s t] and [hide_tool s t] leave the entry of every
    other server [s'] as it was, and leave the exposure of every other
    tool [t'] of [s] as it was. *)
Theorem expose_hide_frame reg s s' t t' :
  s ≠ s' -> t ≠ t' ->
  expose_tool reg s t !! s' = reg !! s'
  /\ hide_tool reg s t !! s' = reg !! s'
  /\ is_exposed (expose_tool reg s t) s t' = is_exposed reg s t'
  /\ is_exposed (hide_tool reg s t) s t' = is_exposed reg s t'.
Proof.
  intros Hs Ht. split_and!.
  - by apply lookup_expose_other.
  - by apply lookup_hide_other.
  - unfold is_exposed. rewrite exposed_set_expose.
    apply bool_decide_ext. set_solver.
  - unfold is_exposed. rewrite exposed_set_hide.
    apply bool_decide_ext. set_solver.
Qed.

Lemma expose_hide_frame_witness :
  expose_tool files_registry "files" "delete" !! "mail" = files_registry !! "mail"
  /\ hide_tool files_registry "files" "read" !! "mail" = files_registry !! "mail"
  /\ is_exposed (expose_tool files_registry "files" "delete") "files" "write"
     = is_exposed files_registry "files" "write"
  /\ is_exposed (hide_tool files_registry "files" "read") "files" "write"
     = is_exposed files_registry "files" "write".
Proof.
  assert ("files" ≠ "mail") as Hs by discriminate.
  assert ("delete" ≠ "write") as Hd by discriminate.
  assert ("read" ≠ "write") as Hr by discriminate.
  pose proof (expose_hide_frame files_registry "files" "mail" "delete" "write" Hs Hd) as A.
  pose proof (expose_hide_frame files_registry "files" "mail" "read" "write" Hs Hr) as B.
  exact (conj (proj1 A) (conj (proj1 (proj2 B))
           (conj (proj1 (proj2 (proj2 A))) (proj2 (proj2 (proj2 B)))))).
Defined.

(** C8 (as the code has it): [initialize_from_servers] stores, for every
    server of the catalog, the set of its first three tools, whatever was
    stored for that server before, and keeps the entries of servers that
    are not in the catalog; running it a second time on the same catalog
    changes nothing; for a server with tools [a,b,c,d] the stored set is
    {a,b,c}, so [c] is exposed and [d] is not. *)
Theorem initialize_from_servers_first_three reg (catalog : gmap string Server) :
  (forall s, initialize_from_servers reg catalog !! s =
             match catalog !! s with
             | Some server =>
                 Some (list_to_set (map tool_name (take 3 (default [] (tools server)))))
             | None => reg !! s
             end)
  /\ initialize_from_servers (initialize_from_servers reg catalog) catalog
     = initialize_from_servers reg catalog
  /\ (forall a b c d,
        initialize_from_servers reg {["srv" := four_tools a b c d]} !! "srv"
        = Some {[a; b; c]}
        /\ is_exposed (initialize_from_servers reg {["srv" := four_tools a b c d]})
             "srv" c = true).
Proof.
  split_and!.
  - intros s. apply lookup_initialize.
  - apply initialize_twice.
  - intros a b c d.
    assert (initialize_from_servers reg {["srv" := four_tools a b c d]} !! "srv"
            = Some ({[a; b; c]} : gset string)) as E.
    { rewrite lookup_initialize, lookup_singleton_eq. f_equal.
      apply initial_set_four. }
    split; [exact E|]. unfold is_exposed. rewrite E.
    apply bool_decide_eq_true. change (default ∅ (Some ?x)) with x.
    clear E. set_solver.
Qed.

(** C8, the statement of the specification fails: after initialisation of
    a server with tools [a,b,c,d] the tool [c] is exposed, and an entry of
    a server outside the catalog survives a second initialisation. *)
Lemma initialize_not_first_two_nor_full_replace :
  ~ first_two_exposed
      (initialize_from_servers ToolRegistry.init {["srv" := four_tools "a" "b" "c" "d"]})
      "srv" "a" "b" "c"
  /\ ~ full_replace (expose_tool ToolRegistry.init "old" "x")
         {["srv" := four_tools "a" "b" "c" "d"]}.
Proof.
  split.
  - intros [_ H]. apply is_exposed_false in H. apply H.
    rewrite lookup_initialize, lookup_singleton_eq.
    change (default ∅ (Some ?x)) with x.
    rewrite initial_set_four. set_solver.
  - unfold full_replace. intros H.
    apply (f_equal (fun r : registry => r !! "old")) in H.
    rewrite !lookup_initialize in H.
    rewrite lookup_singleton_ne in H by done.
    unfold expose_tool, ToolRegistry.init in H.
    rewrite lookup_insert_eq, lookup_empty in H. discriminate.
Qed.

End RegistryClaims.

(** ** Server descriptors and startup *)

Section StartupFacts.
Import Schemas Router Scenario.

Lemma bind_ok_inv {A B} (r : result A) (k : A -> result B) (b : B) :
  r ≫= k = Ok b -> exists a, r = Ok a /\ k a = Ok b.
Proof. destruct r as [a|e]; [by exists a | discriminate]. Qed.

Lemma check_command_or_url_ok (cfg : ServerConfig) :
  is_ok (check_command_or_url cfg) = truthy (command cfg) || truthy (url cfg).
Proof.
  unfold check_command_or_url.
  by destruct (truthy (command cfg)), (truthy (url cfg)).
Qed.

Lemma check_command_or_url_id (cfg cfg' : ServerConfig) :
  check_command_or_url cfg = Ok cfg' -> cfg' = cfg.
Proof.
  unfold check_command_or_url.
  destruct (_ && _); [discriminate | congruence].
Qed.

(** A dictionary is accepted as a descriptor when its fields validate and
    the validator lets the result through; the descriptor built is the
    validated one. *)
Lemma ServerConfig_new_ok (d : pydict) (cfg : ServerConfig) :
  ServerConfig_new (PyDict d) = Ok cfg <->
  validate_fields d = Ok cfg /\ truthy (command cfg) || truthy (url cfg) = true.
Proof.
  simpl. destruct (validate_fields d) as [c|e]; simpl.
  - rewrite <- check_command_or_url_ok. split.
    + intros H. pose proof (check_command_or_url_id _ _ H) as ->.
      by rewrite H.
    + intros [[= ->] H]. unfold check_command_or_url in *.
      by destruct (_ && _).
  - split; [done | by intros [? _]].
Qed.



End StartupFacts.

Section StartupClaims.
Import Schemas Router Scenario.







End StartupClaims.

(** ** Routing and dispatch *)

Section RouterFacts.
Import Schemas ToolRegistry Router Scenario.

(** The timeout outcome cannot be built: its text content lacks the
    required [type]. *)
Lemma timed_out_result_raises (t s : string) :
  timed_out_result t s = Raise (ValidationError "type: Field required").
Proof. reflexivity. Qed.

(** A call to a catalog server whose connection opens: the whole trace,
    and the outcome by the three ways the bounded remote call can end. *)
Lemma call_tool_connected (self : Router.Router) (C : MCPConnection)
    (s t : string) (params : option pydict) (timeout : option Z)
    (cfg : Server) :
  servers self !! s = Some cfg ->
  aenter C cfg = Opened ->
  call_tool self C s t params timeout =
    ([LockAcquire; ConnOpen s;
      Invoke s t (params_or_empty params) (default DEFAULT_TIMEOUT timeout);
      ConnClose s; LockRelease],
     match wait_for_call_tool C cfg t (params_or_empty params)
             (default DEFAULT_TIMEOUT timeout) with
     | Ok r => Returns r
     | Raise TimeoutError => outcome_of (timed_out_result t s)
     | Raise e => Raises e
     end).
Proof.
  intros Hs Ho. unfold call_tool, with_connection. rewrite Hs, Ho.
  destruct (wait_for_call_tool _ _ _ _ _) as [r|[]]; reflexivity.
Qed.

Lemma call_tool_open_pending (self : Router.Router) (C : MCPConnection)
    (s t : string) (params : option pydict) (timeout : option Z)
    (cfg : Server) :
  servers self !! s = Some cfg ->
  aenter C cfg = OpenPending ->
  call_tool self C s t params timeout = ([LockAcquire; ConnOpen s], Pending).
Proof.
  intros Hs Ho. unfold call_tool, with_connection. by rewrite Hs, Ho.
Qed.

Lemma call_tool_open_raises (self : Router.Router) (C : MCPConnection)
    (s t : string) (params : option pydict) (timeout : option Z)
    (cfg : Server) (e : exn) :
  servers self !! s = Some cfg ->
  aenter C cfg = OpenRaises e ->
  call_tool self C s t params timeout =
    ([LockAcquire; ConnOpen s; ConnOpenFailed s; LockRelease], Raises e).
Proof.
  intros Hs Ho. unfold call_tool, with_connection. by rewrite Hs, Ho.
Qed.

Lemma call_tool_unknown (self : Router.Router) (C : MCPConnection)
    (s t : string) (params : option pydict) (timeout : option Z) :
  servers self !! s = None ->
  call_tool self C s t params timeout =
    ([LockAcquire; LockRelease], Raises (ValueError (unknown_server_message s))).
Proof. intros Hs. unfold call_tool. by rewrite Hs. Qed.

End RouterFacts.


Section RouterClaims.
Import Schemas ToolRegistry Router Scenario.

(** C1 (as the code has it): [call_tool] has no visibility gate. For a
    server [s] of the catalog and a tool [t] that the registry does not
    expose, the call takes the dispatch lock, opens a connection to [s],
    invokes [t] on it and, when the remote call returns, hands back its
    result unchanged. *)
Theorem call_tool_ignores_visibility (self : Router.Router) (C : MCPConnection)
    (reg : registry) (s t : string) (params : option pydict)
    (timeout : option Z) (cfg : Server) (r : CallToolResult) :
  is_exposed reg s t = false ->
  servers self !! s = Some cfg ->
  aenter C cfg = Opened ->
  wait_for_call_tool C cfg t (params_or_empty params)
    (default DEFAULT_TIMEOUT timeout) = Ok r ->
  call_tool self C s t params timeout =
    ([LockAcquire; ConnOpen s;
      Invoke s t (params_or_empty params) (default DEFAULT_TIMEOUT timeout);
      ConnClose s; LockRelease],
     Returns r).
Proof.
  intros _ Hs Ho Hr. rewrite (call_tool_connected _ _ _ _ _ _ cfg Hs Ho).
  by rewrite Hr.
Qed.

Lemma call_tool_ignores_visibility_witness :
  is_exposed files_registry "files" "delete" = false
  /\ call_tool files_router stub_connection "files" "delete" None None =
       ([LockAcquire; ConnOpen "files"; Invoke "files" "delete" [] 300;
         ConnClose "files"; LockRelease],
        Returns payload).
Proof.
  assert (is_exposed files_registry "files" "delete" = false) as Hhidden
    by (vm_compute; reflexivity).
  split; [exact Hhidden|].
  apply (call_tool_ignores_visibility files_router stub_connection
           files_registry "files" "delete" None None files_server payload Hhidden);
    reflexivity.
Defined.

(** C1, the statement of the specification fails: [delete] is hidden on
    [files], yet the call opens a connection and returns the remote
    payload, which is not an error. *)
Lemma hidden_tool_is_dispatched :
  ~ visibility_gate files_router stub_connection files_registry
      "files" "delete" None None.
Proof.
  unfold visibility_gate. intros H.
  destruct H as (r & Hr & Herr & _); [vm_compute; reflexivity|].
  rewrite (call_tool_connected files_router stub_connection "files" "delete"
             None None files_server) in Hr by reflexivity.
  simpl in Hr. injection Hr as <-. discriminate.
Qed.

(** C2 (as the code has it): [route] returns the result of the matcher
    unchanged: the same value, hence the same [matched_tools] list and the
    same [success] entry, with nothing split off or filtered. *)
Theorem route_returns_matcher_result (self : Router.Router) (query : string) :
  route self query = match_ (matcher self) query
  /\ list_under "matched_tools" (route self query)
     = list_under "matched_tools" (match_ (matcher self) query)
  /\ dict_get "success" (route self query)
     = dict_get "success" (match_ (matcher self) query).
Proof. by unfold route. Qed.

(** C2, the statement of the specification fails: the result of [route]
    has no [visible] list, and its [matched_tools] still holds the
    candidate [delete], which the registry does not expose. *)
Lemma route_does_not_partition :
  ~ route_partitions files_router files_registry "open a document"
  /\ exists l, list_under "matched_tools" (route files_router "open a document") = Some l
       /\ candidate "files" "delete" 7 ∈ l
       /\ candidate_exposed files_registry (candidate "files" "delete" 7) = false.
Proof.
  split.
  - intros (matched & vis & hid & _ & Hvis & _). discriminate Hvis.
  - exists files_matches. split_and!.
    + reflexivity.
    + unfold files_matches. set_solver.
    + vm_compute; reflexivity.
Qed.

(** C3 (as the code has it): for a server name that is not in the catalog,
    [call_tool] takes and releases the dispatch lock, opens no connection,
    and raises [ValueError] with the message "Server '<name>' is not defined
    in the configuration." to its caller; no outcome is returned. *)
Theorem call_tool_unknown_server_raises (self : Router.Router)
    (C : MCPConnection) (s t : string) (params : option pydict)
    (timeout : option Z) :
  servers self !! s = None ->
  call_tool self C s t params timeout =
    ([LockAcquire; LockRelease],
     Raises (ValueError ("Server '" +:+ s +:+ "' is not defined in the configuration."))).
Proof. apply call_tool_unknown. Qed.

Lemma call_tool_unknown_server_raises_witness :
  call_tool files_router stub_connection "ghost-server" "anything" (Some []) None =
    ([LockAcquire; LockRelease],
     Raises (ValueError "Server 'ghost-server' is not defined in the configuration.")).
Proof.
  apply (call_tool_unknown_server_raises files_router stub_connection
           "ghost-server" "anything" (Some []) None).
  vm_compute; reflexivity.
Defined.

(** C3, the statement of the specification fails: the call to an unknown
    server returns no outcome. *)
Lemma unknown_server_not_returned :
  ~ unknown_server_is_returned files_router stub_connection
      "ghost-server" "anything" (Some []) None.
Proof.
  unfold unknown_server_is_returned. intros H.
  destruct H as (r & Hr & _); [vm_compute; reflexivity|].
  rewrite call_tool_unknown in Hr by (vm_compute; reflexivity).
  discriminate Hr.
Qed.

(** C5 (what the code does when the remote call times out): the
    [except asyncio.TimeoutError] branch builds its text content, whose text
    is "Tool <tool> in <server> call timed out.", without the required
    [type], so the construction raises; the connection is then closed once,
    the lock released, and the validation error raised to the caller
    instead of an outcome with [isError] set. The deadline is the [timeout]
    argument, 300 when left out, and it applies to the remote call only: a
    connection that never finishes opening keeps the invocation pending
    whatever the timeout. *)
Theorem call_tool_timeout (self : Router.Router) (C : MCPConnection)
    (s t : string) (params : option pydict) (timeout : option Z)
    (cfg : Server) :
  servers self !! s = Some cfg ->
  (aenter C cfg = Opened ->
   wait_for_call_tool C cfg t (params_or_empty params)
     (default 300%Z timeout) = Raise TimeoutError ->
   call_tool self C s t params timeout =
     ([LockAcquire; ConnOpen s;
       Invoke s t (params_or_empty params) (default 300%Z timeout);
       ConnClose s; LockRelease],
      Raises (ValidationError "type: Field required"))
   /\ TextContent_new (Some "text")
        ("Tool " +:+ t +:+ " in " +:+ s +:+ " call timed out.")
      = Ok {| text := timed_out_message t s |})
  /\ (aenter C cfg = OpenPending ->
      call_tool self C s t params timeout = ([LockAcquire; ConnOpen s], Pending)).
Proof.
  intros Hs. split.
  - intros Ho Ht. rewrite (call_tool_connected _ _ _ _ _ _ cfg Hs Ho).
    change DEFAULT_TIMEOUT with 300%Z. by rewrite Ht.
  - intros Ho. by apply (call_tool_open_pending _ _ _ _ _ _ cfg).
Qed.

Lemma call_tool_timeout_witness :
  call_tool files_router slow_connection "files" "read"
    (Some [("path", PyStr "x")]) None =
    ([LockAcquire; ConnOpen "files";
      Invoke "files" "read" [("path", PyStr "x")] 300;
      ConnClose "files"; LockRelease],
     Raises (ValidationError "type: Field required"))
  /\ call_tool files_router stuck_connection "files" "read" None (Some 1%Z) =
       ([LockAcquire; ConnOpen "files"], Pending).
Proof.
  assert (servers files_router !! "files" = Some files_server) as Hs
    by (vm_compute; reflexivity).
  split.
  - apply (proj1 (call_tool_timeout files_router slow_connection "files" "read"
                    (Some [("path", PyStr "x")]) None files_server Hs));
      reflexivity.
  - apply (proj2 (call_tool_timeout files_router stuck_connection "files" "read"
                    None (Some 1%Z) files_server Hs)); reflexivity.
Defined.

End RouterClaims.


(** ** Serialised dispatch *)

Section DispatchFacts.
Import Schemas Router Dispatch Scenario.

Lemma perform_step (σ σ' : system) (i : nat) :
  perform σ i = Some σ' -> step σ σ'.
Proof.
  unfold perform. intros H.
  destruct (tasks σ !! i) as [[d [|e rest]]|] eqn:Hi; try discriminate.
  destruct (enabled (locked σ) e) eqn:He; [|discriminate].
  injection H as <-. by apply step_event.
Qed.

Lemma schedule_rtc (order : list nat) : forall σ σ',
  schedule σ order = Some σ' -> rtc step σ σ'.
Proof.
  induction order as [|i order IH]; intros σ σ' H; simpl in H.
  - injection H as <-. apply rtc_refl.
  - destruct (perform σ i) as [σ1|] eqn:Hp; [|discriminate].
    eapply rtc_l; [exact (perform_step _ _ i Hp) | by apply IH].
Qed.

(** Every trace of [call_tool] follows the phases: lock, then connection,
    then release. *)
Lemma call_tool_phases (self : Router.Router) (C : MCPConnection)
    (s t : string) (params : option pydict) (timeout : option Z) :
  is_Some (phase_run Idle (fst (call_tool self C s t params timeout))).
Proof.
  destruct (servers self !! s) as [cfg|] eqn:Hs.
  - destruct (aenter C cfg) eqn:Ho.
    + by rewrite (call_tool_connected _ _ _ _ _ _ cfg Hs Ho).
    + by rewrite (call_tool_open_raises _ _ _ _ _ _ cfg e Hs Ho).
    + by rewrite (call_tool_open_pending _ _ _ _ _ _ cfg Hs Ho).
  - by rewrite (call_tool_unknown _ _ _ _ _ _ Hs).
Qed.

Lemma phase_step_holds (p p' : phase) (e : event) :
  phase_step p e = Some p' ->
  lock_after (phase_holds p) e = phase_holds p'
  /\ conn_after (phase_open p) e = phase_open p'.
Proof. destruct p, e; simpl; intros H; by simplify_eq. Qed.

Lemma phase_run_app (l : list event) : forall p e,
  phase_run p (l ++ [e]) = phase_run p l ≫= fun p' => phase_step p' e.
Proof.
  induction l as [|x l IH]; intros p e; simpl.
  - by destruct (phase_step p e).
  - destruct (phase_step p x); [apply IH | done].
Qed.

Lemma phase_run_observed (l : list event) : forall p p',
  phase_run p l = Some p' ->
  fold_left lock_after l (phase_holds p) = phase_holds p'
  /\ fold_left conn_after l (phase_open p) = phase_open p'.
Proof.
  induction l as [|x l IH]; intros p p' H; simpl in *.
  - by simplify_eq.
  - destruct (phase_step p x) as [p1|] eqn:E; [|done].
    apply phase_step_holds in E as [-> ->]. by apply IH.
Qed.

Lemma holds_lock_snoc (d : list event) (e : event) :
  holds_lock (d ++ [e]) = lock_after (holds_lock d) e.
Proof. unfold holds_lock. by rewrite fold_left_app. Qed.

Lemma invariant_initial (self : Router.Router) (C : MCPConnection)
    (invs : list invocation) :
  invariant (initial self C invs).
Proof.
  assert (forall i t, tasks (initial self C invs) !! i = Some t ->
            done t = [] /\ is_Some (phase_run Idle (todo t))) as Hinit.
  { simpl. intros i t H. apply list_lookup_fmap_Some in H as (inv & -> & _).
    split; [done | apply call_tool_phases]. }
  split.
  - intros i t H. apply Hinit in H as [-> ?]. by exists Idle.
  - intros _ i t H. by apply Hinit in H as [-> _].
  - intros i j ti tj _ _ H _. by apply Hinit in H as [-> _].
Qed.

Lemma insert_lookup_cases (l : list task) (i j : nat) (t' t : task) :
  i < length l ->
  <[i := t']> l !! j = Some t ->
  (j = i /\ t = t') \/ (j ≠ i /\ l !! j = Some t).
Proof.
  intros Hlt H. destruct (decide (j = i)) as [->|Hne].
  - left. rewrite list_lookup_insert_eq in H by done. by simplify_eq.
  - right. by rewrite list_lookup_insert_ne in H.
Qed.

Lemma invariant_step (σ σ' : system) : invariant σ -> step σ σ' -> invariant σ'.
Proof.
  intros [Hph Hfree Hexcl] Hstep.
  destruct Hstep as [σ i d e rest Hi Hen].
  destruct (Hph i _ Hi) as (p & Hp & Hrest). simpl in Hp, Hrest.
  destruct (phase_step p e) as [p1|] eqn:Hpe; [|by destruct Hrest].
  assert (i < length (tasks σ)) as Hlt by (by eapply lookup_lt_Some).
  assert (holds_lock d = phase_holds p) as Hd
    by apply (phase_run_observed d Idle p Hp).
  assert (holds_lock (d ++ [e]) = phase_holds p1) as Hd'.
  { rewrite holds_lock_snoc, Hd. by apply phase_step_holds. }
  assert (forall j t, j ≠ i -> tasks σ !! j = Some t ->
            holds_lock (d ++ [e]) = true -> holds_lock (done t) = false) as Hothers.
  { intros j t Hne Hj Hh. rewrite holds_lock_snoc in Hh.
    destruct (holds_lock d) eqn:Hold.
    - by apply (Hexcl i j _ t (not_eq_sym Hne) Hi Hj).
    - destruct e; simpl in Hh, Hen; try discriminate.
      apply negb_true_iff in Hen. by apply (Hfree Hen j t). }
  split; simpl.
  - intros j t H. apply insert_lookup_cases in H as [[-> ->]|[Hne H]]; [|by eauto|done].
    exists p1. simpl. split; [|done]. rewrite phase_run_app, Hp. done.
  - intros Hl j t H. apply insert_lookup_cases in H as [[-> ->]|[Hne H]]; [| |done].
    + simpl. rewrite holds_lock_snoc.
      destruct e; simpl in *; try done; by apply (Hfree Hl i _ Hi).
    + destruct (holds_lock (d ++ [e])) eqn:Hnew; [by apply (Hothers j t Hne H)|].
      destruct e; simpl in *; try done; try by apply (Hfree Hl j t).
      destruct p; simpl in Hpe; try discriminate.
      by apply (Hexcl i j _ t (not_eq_sym Hne) Hi H).
  - intros j1 j2 t1 t2 Hne H1 H2 Hh.
    apply insert_lookup_cases in H1 as [[-> ->]|[Hne1 H1]]; [| |done];
    apply insert_lookup_cases in H2 as [[-> ->]|[Hne2 H2]]; try done.
    + simpl in Hh. by apply (Hothers j2 t2).
    + simpl. destruct (holds_lock (d ++ [e])) eqn:Hnew; [|done].
      rewrite (Hothers j1 t1 Hne1 H1 eq_refl) in Hh. done.
    + by apply (Hexcl j1 j2 t1 t2).
Qed.

Lemma reachable_invariant (self : Router.Router) (C : MCPConnection)
    (invs : list invocation) (σ : system) :
  reachable self C invs σ -> invariant σ.
Proof.
  unfold reachable. revert σ. apply rtc_ind_r.
  - apply invariant_initial.
  - intros σ1 σ2 _ Hstep IH. by apply (invariant_step σ1).
Qed.

End DispatchFacts.

Section DispatchClaims.
Import Schemas Router Dispatch Scenario.








(** While the first caller is connected, the second caller cannot take the
    lock: the schedule that lets it move next is refused. *)
Example second_caller_waits :
  schedule two_callers [0; 0; 1] = None
  /\ schedule two_callers [0; 0; 0; 0; 0; 1] <> None.
Proof. split; [vm_compute; reflexivity | vm_compute; discriminate]. Qed.

End DispatchClaims.


(** * Further properties *)

(** ** The registry as a map of sets *)

Section RegistryAlgebra.
Import Schemas ToolRegistry Scenario.
Implicit Types (reg : registry) (s t k : string).

Lemma lookup_expose reg s t k :
  expose_tool reg s t !! k =
    if decide (k = s) then Some ({[t]} ∪ default ∅ (reg !! s)) else reg !! k.
Proof.
  unfold expose_tool. case_decide as E.
  - subst. by rewrite lookup_insert_eq.
  - by rewrite lookup_insert_ne.
Qed.

Lemma lookup_hide reg s t k :
  hide_tool reg s t !! k =
    if decide (k = s) then (fun x : gset string => x ∖ {[t]}) <$> reg !! s
    else reg !! k.
Proof.
  unfold hide_tool. destruct (reg !! s) as [x|] eqn:E; case_decide as Hk; subst.
  - by rewrite lookup_insert_eq.
  - by rewrite lookup_insert_ne.
  - by rewrite E.
  - done.
Qed.

Lemma exposed_entry reg s t :
  is_exposed reg s t = true -> exists x, reg !! s = Some x /\ t ∈ x.
Proof.
  rewrite is_exposed_true. destruct (reg !! s) as [x|]; simpl; [eauto|set_solver].
Qed.

(** X1: [expose_tool] does nothing when the tool is already exposed, and so it
    is idempotent. *)
Theorem expose_tool_present_noop reg s t :
  (is_exposed reg s t = true -> expose_tool reg s t = reg)
  /\ expose_tool (expose_tool reg s t) s t = expose_tool reg s t.
Proof.
  assert (forall r : registry, is_exposed r s t = true -> expose_tool r s t = r) as H.
  { intros r (x & E & Hin)%exposed_entry. unfold expose_tool.
    apply insert_id. rewrite E. simpl. f_equal. set_solver. }
  split; [apply H|]. apply H.
  apply is_exposed_true. rewrite exposed_set_expose. set_solver.
Qed.

Lemma expose_tool_present_noop_witness :
  expose_tool files_registry "files" "read" = files_registry.
Proof.
  apply (proj1 (expose_tool_present_noop files_registry "files" "read")).
  vm_compute; reflexivity.
Defined.

(** X2: Hiding a tool right after exposing it, when it was not exposed before:
    the registry is back to what it was if the server had an entry; a
    server without entry keeps the empty entry that [expose_tool] created;
    in both cases every exposure query answers as before. *)
Theorem hide_after_expose reg s t :
  is_exposed reg s t = false ->
  (is_Some (reg !! s) -> hide_tool (expose_tool reg s t) s t = reg)
  /\ (reg !! s = None -> hide_tool (expose_tool reg s t) s t = <[s := ∅]> reg)
  /\ (forall s' t', is_exposed (hide_tool (expose_tool reg s t) s t) s' t'
                    = is_exposed reg s' t').
Proof.
  rewrite is_exposed_false. intros Hn.
  assert (forall k, hide_tool (expose_tool reg s t) s t !! k =
            if decide (k = s) then Some (default ∅ (reg !! s)) else reg !! k) as Hlk.
  { intros k. rewrite lookup_hide. case_decide as Hk.
    - rewrite lookup_expose. rewrite decide_True by done. simpl. f_equal. set_solver.
    - rewrite lookup_expose. by rewrite decide_False. }
  split_and!.
  - intros [x E]. apply map_eq. intros k. rewrite Hlk. case_decide; [|done].
    subst. by rewrite E.
  - intros E. apply map_eq. intros k. rewrite Hlk. case_decide as Hk.
    + subst. by rewrite lookup_insert_eq, E.
    + by rewrite lookup_insert_ne.
  - intros s' t'. unfold is_exposed. rewrite Hlk. case_decide; [|done].
    subst. done.
Qed.

Lemma hide_after_expose_witness :
  hide_tool (expose_tool files_registry "files" "delete") "files" "delete"
    = files_registry
  /\ hide_tool (expose_tool files_registry "mail" "send") "mail" "send"
    = <["mail" := ∅]> files_registry.
Proof.
  split.
  - apply (proj1 (hide_after_expose files_registry "files" "delete"
                    ltac:(vm_compute; reflexivity))).
    destruct (exposed_entry files_registry "files" "read"
                ltac:(vm_compute; reflexivity)) as (x & E & _).
    by exists x.
  - apply (proj1 (proj2 (hide_after_expose files_registry "mail" "send"
                           ltac:(vm_compute; reflexivity)))).
    vm_compute; reflexivity.
Defined.

(** X3: Exposing a tool again right after hiding it restores the registry, when
    the tool was exposed to begin with. *)
Theorem expose_after_hide reg s t :
  is_exposed reg s t = true ->
  expose_tool (hide_tool reg s t) s t = reg.
Proof.
  intros (x & E & Hin)%exposed_entry. apply map_eq. intros k.
  rewrite lookup_expose. case_decide as Hk.
  - subst. rewrite exposed_set_hide, E. simpl. f_equal.
    apply set_eq. intros y. rewrite elem_of_union, elem_of_difference,
      elem_of_singleton. destruct (decide (y = t)); naive_solver.
  - rewrite lookup_hide. by rewrite decide_False.
Qed.

Lemma expose_after_hide_witness :
  expose_tool (hide_tool files_registry "files" "write") "files" "write"
    = files_registry.
Proof.
  apply (expose_after_hide files_registry "files" "write").
  vm_compute; reflexivity.
Defined.

(** X4: [list_exposed] is a duplicate-free listing of exactly the tools for
    which [is_exposed] answers true; for a server without entry it is empty. *)
Theorem list_exposed_matches_is_exposed reg s :
  NoDup (list_exposed reg s)
  /\ (forall t, t ∈ list_exposed reg s <-> is_exposed reg s t = true)
  /\ (reg !! s = None -> list_exposed reg s = [] /\ forall t, is_exposed reg s t = false).
Proof.
  unfold list_exposed. split_and!.
  - apply NoDup_elements.
  - intros t. by rewrite elem_of_elements, is_exposed_true.
  - intros E. rewrite E. simpl. split; [apply elements_empty|].
    intros t. apply is_exposed_false. rewrite E. simpl. set_solver.
Qed.

Lemma list_exposed_matches_is_exposed_witness :
  list_exposed files_registry "mail" = []
  /\ is_exposed files_registry "mail" "send" = false.
Proof.
  destruct (list_exposed_matches_is_exposed files_registry "mail") as (_ & _ & H).
  destruct H as [Hl Hf]; [vm_compute; reflexivity|].
  split; [exact Hl | apply Hf].
Defined.

End RegistryAlgebra.

Section RegistryComposition.
Import Schemas ToolRegistry Scenario.
Implicit Types (reg : registry) (s t k : string).

(** X5: Updates of the registry can be applied in either order: two
    [expose_tool], two [hide_tool], and an [expose_tool] with a [hide_tool]
    of another server/tool pair. *)
Theorem registry_updates_commute reg s t s' t' :
  expose_tool (expose_tool reg s t) s' t' = expose_tool (expose_tool reg s' t') s t
  /\ hide_tool (hide_tool reg s t) s' t' = hide_tool (hide_tool reg s' t') s t
  /\ ((s, t) ≠ (s', t') ->
      hide_tool (expose_tool reg s t) s' t' = expose_tool (hide_tool reg s' t') s t).
Proof.
  split_and!.
  - apply map_eq. intros k. rewrite !lookup_expose.
    destruct (decide (k = s')) as [E1|H1], (decide (k = s)) as [E2|H2]; subst;
      rewrite ?lookup_expose, ?decide_True, ?decide_False by done; try done.
    simpl. f_equal. set_solver.
  - apply map_eq. intros k. rewrite !lookup_hide.
    destruct (decide (k = s')) as [E1|H1], (decide (k = s)) as [E2|H2]; subst;
      rewrite ?lookup_hide, ?decide_True, ?decide_False by done; try done.
    destruct (reg !! s) as [x|]; simpl; [|done]. f_equal. set_solver.
  - intros Hne. apply map_eq. intros k.
    rewrite lookup_hide, !lookup_expose.
    destruct (decide (k = s')) as [E1|H1], (decide (k = s)) as [E2|H2]; subst;
      rewrite ?lookup_hide, ?lookup_expose, ?decide_True, ?decide_False by done;
      try done.
    + assert (t ≠ t') by congruence.
      destruct (reg !! s) as [x|]; simpl; f_equal; set_solver.
    + by rewrite decide_True.
Qed.

Lemma registry_updates_commute_witness :
  hide_tool (expose_tool files_registry "files" "delete") "files" "read"
  = expose_tool (hide_tool files_registry "files" "read") "files" "delete".
Proof.
  apply (proj2 (proj2 (registry_updates_commute files_registry
                         "files" "delete" "files" "read"))).
  discriminate.
Defined.

(** X6: Which servers have an entry: [expose_tool] adds its server,
    [hide_tool] neither adds nor removes one (an emptied set stays), and
    [initialize_from_servers] adds the servers of the catalog. *)
Theorem registry_entries reg s t (catalog : gmap string Server) :
  dom (expose_tool reg s t) = {[s]} ∪ dom reg
  /\ dom (hide_tool reg s t) = dom reg
  /\ dom (initialize_from_servers reg catalog) = dom catalog ∪ dom reg.
Proof.
  split_and!.
  - unfold expose_tool. apply dom_insert_L.
  - apply set_eq. intros k. rewrite !elem_of_dom, lookup_hide.
    case_decide; [subst|done]. by rewrite fmap_is_Some.
  - apply set_eq. intros k.
    rewrite elem_of_union, !elem_of_dom, lookup_initialize.
    destruct (catalog !! k) as [srv|].
    + split; [by left | by eexists].
    + split; [by right | by intros [[]|]].
Qed.

Lemma size_list_to_set_le (l : list string) :
  (size (list_to_set l : gset string) ≤ length l)%nat.
Proof.
  induction l as [|x l IH].
  - change (list_to_set [] : gset string) with (∅ : gset string). rewrite size_empty. simpl. lia.
  - change (list_to_set (x :: l) : gset string) with ({[x]} ∪ list_to_set l : gset string).
    rewrite size_union_alt, size_singleton.
    assert (size (list_to_set l ∖ {[x]} : gset string)
            ≤ size (list_to_set l : gset string))%nat
      by (apply subseteq_size; set_solver).
    simpl. lia.
Qed.

(** X7: After [initialize_from_servers], the tools exposed on a server of the
    catalog are exactly the names of its first three reported tools: at
    most three, and none when the server reports no tool list or an empty
    one. *)
Theorem initialize_exposes_first_three reg (catalog : gmap string Server)
    s (server : Server) :
  catalog !! s = Some server ->
  (forall t, is_exposed (initialize_from_servers reg catalog) s t = true
             <-> t ∈ map tool_name (take 3 (default [] (tools server))))
  /\ (length (list_exposed (initialize_from_servers reg catalog) s) ≤ 3)%nat
  /\ (default [] (tools server) = [] ->
      list_exposed (initialize_from_servers reg catalog) s = []).
Proof.
  intros Hs.
  assert (default ∅ (initialize_from_servers reg catalog !! s) = initial_set server) as E
    by (by rewrite lookup_initialize, Hs).
  unfold list_exposed, is_exposed. rewrite E. unfold initial_set, K. split_and!.
  - intros t. rewrite bool_decide_eq_true. apply elem_of_list_to_set.
  - etrans; [apply size_list_to_set_le|].
    rewrite length_map, length_take. lia.
  - intros ->. simpl. apply elements_empty.
Qed.

Lemma initialize_exposes_first_three_witness :
  (is_exposed (initialize_from_servers ToolRegistry.init
                 {["srv" := four_tools "a" "b" "c" "d"]}) "srv" "d" = true
   <-> "d" ∈ ["a"; "b"; "c"])
  /\ (length (list_exposed (initialize_from_servers ToolRegistry.init
                {["srv" := four_tools "a" "b" "c" "d"]}) "srv") ≤ 3)%nat.
Proof.
  destruct (initialize_exposes_first_three ToolRegistry.init
              {["srv" := four_tools "a" "b" "c" "d"]} "srv"
              (four_tools "a" "b" "c" "d") (lookup_singleton_eq _ _))
    as (H1 & H2 & _).
  split; [exact (H1 "d") | exact H2].
Defined.

End RegistryComposition.

(** ** Construction of the router *)

Section ConstructionFacts.
Import Schemas ToolRegistry Router Scenario.

Lemma bind_ok {A B} (r : result A) (k : A -> result B) (a : A) :
  r = Ok a -> r ≫= k = k a.
Proof. by intros ->. Qed.

Lemma string_app_assoc (a b c : string) : (a +:+ b) +:+ c = a +:+ (b +:+ c).
Proof.
  induction a as [|x a IH]; [done|].
  change (String x ((a +:+ b) +:+ c) = String x (a +:+ (b +:+ c))).
  by f_equal.
Qed.

(** What the loop over the descriptors raises is what the constructor of
    the refused descriptor raised; when the fields of every descriptor
    validate, that is the validator's error. *)
Lemma load_servers_raises items : forall acc e,
  (forall n data, (n, data) ∈ items ->
     exists d cfg, data = PyDict d /\ validate_fields d = Ok cfg) ->
  load_servers items acc = Raise e ->
  e = ValidationError "Either 'command' or 'url' must be provided".
Proof.
  induction items as [|[n c] items IH]; intros acc e Hf H; simpl in H; [done|].
  destruct (Hf n c) as (d & cfg & -> & Hd); [by apply elem_of_cons; left|].
  simpl in H. rewrite Hd in H. simpl in H. unfold check_command_or_url in H.
  destruct (_ && _); simpl in H; [by simplify_eq|].
  eapply IH; [|done]. intros n' data Hin. apply (Hf n'). by apply elem_of_cons; right.
Qed.

(** The map built by the loop: later items overwrite earlier ones, the
    entries of other names are those of the accumulator. *)
Lemma load_servers_lookup items : forall acc m,
  load_servers items acc = Ok m ->
  (forall n data, (n, data) ∈ items -> is_ok (ServerConfig_new data) = true)
  /\ (forall n, n ∉ items.*1 -> m !! n = acc !! n)
  /\ (forall n, n ∈ items.*1 ->
        exists data c, (n, data) ∈ items /\ ServerConfig_new data = Ok c
                       /\ m !! n = Some (Server_new n c)).
Proof.
  induction items as [|[n0 c0] items IH]; intros acc m H; simpl in H.
  - simplify_eq. split_and!.
    + intros n c Hin. by apply elem_of_nil in Hin.
    + done.
    + intros n Hin. by apply elem_of_nil in Hin.
  - apply bind_ok_inv in H as (cfg & Hc & H).
    destruct (IH _ _ H) as (Hvalid & Hout & Hin). split_and!.
    + intros n c [Heq|Hel]%elem_of_cons; [|by eapply Hvalid].
      simplify_eq. by rewrite Hc.
    + intros n Hn. rewrite fmap_cons, not_elem_of_cons in Hn.
      destruct Hn as [Hne Hn]. simpl in Hne.
      rewrite (Hout n Hn). by rewrite lookup_insert_ne.
    + intros n Hn. destruct (decide (n ∈ items.*1)) as [Hel|Hnel].
      * destruct (Hin n Hel) as (data & c & Hc' & Hd & Hm). exists data, c.
        split_and!; [by apply elem_of_cons; right | done | done].
      * rewrite fmap_cons, elem_of_cons in Hn. destruct Hn as [->|]; [|done].
        exists c0, cfg. split_and!; [by apply elem_of_cons; left | done |].
        rewrite (Hout _ Hnel). simpl. by rewrite lookup_insert_eq.
Qed.

Lemma load_servers_valid items : forall acc,
  (forall n data, (n, data) ∈ items -> is_ok (ServerConfig_new data) = true) ->
  is_ok (load_servers items acc) = true.
Proof.
  induction items as [|[n c] items IH]; intros acc H; simpl; [done|].
  destruct (ServerConfig_new c) as [c'|e] eqn:E.
  - simpl. apply IH. intros n' c'' Hin. apply (H n'). by apply elem_of_cons; right.
  - specialize (H n c ltac:(by apply elem_of_cons; left)). by rewrite E in H.
Qed.

(** A descriptor is accepted exactly when it is a dictionary whose fields
    validate to a descriptor with a command or a URL. *)
Lemma ServerConfig_new_accepts (data : pyval) :
  is_ok (ServerConfig_new data) = true <->
  exists d cfg, data = PyDict d /\ validate_fields d = Ok cfg
                /\ truthy (command cfg) || truthy (url cfg) = true.
Proof.
  split.
  - destruct (ServerConfig_new data) as [cfg|e] eqn:E; [|done]. intros _.
    destruct data as [| | | | |d]; try discriminate.
    apply ServerConfig_new_ok in E as [? ?]. by exists d, cfg.
  - intros (d & cfg & -> & Hd & Ht).
    by rewrite (proj2 (ServerConfig_new_ok d cfg) (conj Hd Ht)).
Qed.

End ConstructionFacts.

Section ConstructionProperties.
Import Schemas ToolRegistry Router Scenario.

(** The stages of the constructor, one condition each. *)
Lemma Router_new_stages (P : Platform) (arg : ConfigArg) (r : Router.Router) :
  Router_new P arg = Ok r <->
  match arg with
  | CfgDict d => d = Router.config r
  | CfgPath p =>
      if path_exists P p then load_json P p = Ok (Router.config r)
      else Router.config r = {| mcpServers := Some [] |}
  | CfgOther => False
  end
  /\ load_servers (default [] (mcpServers (Router.config r))) ∅ = Ok (servers r)
  /\ exists dimensions top_servers top_tools,
       py_int P (getenv P "EMBEDDING_DIMENSIONS") = Ok dimensions
       /\ py_int_default P (getenv P "TOP_SERVERS") 5 = Ok top_servers
       /\ py_int_default P (getenv P "TOP_TOOLS") 3 = Ok top_tools
       /\ ToolMatcher_new P (getenv P "EMBEDDING_MODEL") dimensions top_servers top_tools
          = Ok (matcher r)
       /\ truthy (getenv P "EMBEDDING_API_KEY") = true
       /\ data_path P ≠ ""
       /\ path_exists P (data_path P) = true
       /\ setup_openai_client (matcher r) (getenv P "EMBEDDING_BASE_URL")
            (default "" (getenv P "EMBEDDING_API_KEY")) = Ok ()
       /\ load_data (matcher r) (data_path P) = Ok ().
Proof.
  split.
  - unfold Router_new. intros H.
    apply bind_ok_inv in H as (cfg & Hcfg & H).
    apply bind_ok_inv in H as (srvs & Hsrvs & H).
    apply bind_ok_inv in H as (dims & Hd & H).
    apply bind_ok_inv in H as (ts & Hts & H).
    apply bind_ok_inv in H as (tt & Htt & H).
    apply bind_ok_inv in H as (m & Hm & H).
    cbv zeta in H.
    destruct (truthy (getenv P "EMBEDDING_API_KEY")) eqn:Hkey; [|discriminate].
    simpl in H.
    destruct (String.eqb (data_path P) "") eqn:Hne; [discriminate|].
    destruct (path_exists P (data_path P)) eqn:Hex; [|discriminate].
    simpl in H.
    apply bind_ok_inv in H as ([] & Hsetup & H).
    apply bind_ok_inv in H as ([] & Hload & H).
    injection H as <-. simpl. split_and!.
    + destruct arg as [d|p|]; [congruence | | discriminate].
      destruct (path_exists P p); congruence.
    + done.
    + exists dims, ts, tt. split_and!; try done.
      by apply String.eqb_neq.
  - intros (Hcfg & Hsrvs & dims & ts & tt & Hd & Hts & Htt & Hm & Hkey & Hne
            & Hex & Hsetup & Hload).
    unfold Router_new.
    assert (match arg with
            | CfgDict d => Ok d
            | CfgPath p =>
                if path_exists P p then load_json P p
                else Ok {| mcpServers := Some [] |}
            | CfgOther =>
                Raise (ValueError "Config must be a dictionary or a Path to a JSON file.")
            end = Ok (Router.config r)) as ->.
    { destruct arg as [d|p|]; [congruence | | done].
      destruct (path_exists P p); congruence. }
    rewrite (bind_ok _ _ _ eq_refl), (bind_ok _ _ _ Hsrvs), (bind_ok _ _ _ Hd),
      (bind_ok _ _ _ Hts), (bind_ok _ _ _ Htt), (bind_ok _ _ _ Hm).
    cbv zeta. rewrite Hkey, Hex. apply String.eqb_neq in Hne. rewrite Hne. simpl.
    rewrite (bind_ok _ _ _ Hsetup), (bind_ok _ _ _ Hload). by destruct r.
Qed.


(** X9: Errors of the catalog come first, whatever the environment holds: an
    argument that is neither a dictionary nor a path raises the
    [ValueError] of the constructor, and what the loop over the
    descriptors of a dictionary raises is raised by the constructor; when
    the fields of every descriptor validate, that is the validator's
    error. *)
Theorem catalog_errors_come_first (P : Platform) (d : ConfigDoc) :
  Router_new P CfgOther
    = Raise (ValueError "Config must be a dictionary or a Path to a JSON file.")
  /\ (forall e, load_servers (default [] (mcpServers d)) ∅ = Raise e ->
      Router_new P (CfgDict d) = Raise e)
  /\ ((forall n data, (n, data) ∈ default [] (mcpServers d) ->
         exists f cfg, data = PyDict f /\ validate_fields f = Ok cfg) ->
      is_ok (load_servers (default [] (mcpServers d)) ∅) = false ->
      Router_new P (CfgDict d)
        = Raise (ValidationError "Either 'command' or 'url' must be provided")).
Proof.
  assert (forall e, load_servers (default [] (mcpServers d)) ∅ = Raise e ->
            Router_new P (CfgDict d) = Raise e) as Hraise.
  { intros e E. unfold Router_new. rewrite (bind_ok _ _ d eq_refl). by rewrite E. }
  split_and!; [done | exact Hraise |]. intros Hf Hbad.
  destruct (load_servers (default [] (mcpServers d)) ∅) as [m|e] eqn:E; [done|].
  rewrite (Hraise e eq_refl). by rewrite (load_servers_raises _ _ _ Hf E).
Qed.

Lemma catalog_errors_come_first_witness :
  Router_new (platform (fun _ => None) [] (Ok {| mcpServers := None |}))
     (CfgDict {| mcpServers := Some [("broken", no_form_data)] |})
  = Raise (ValidationError "Either 'command' or 'url' must be provided")
  /\ Router_new (platform (fun _ => None) [] (Ok {| mcpServers := None |}))
       (CfgDict {| mcpServers := Some [("odd", ill_typed_data)] |})
    = Raise (ValidationError "args: Input should be a valid list").
Proof.
  split.
  - apply (proj2 (proj2 (catalog_errors_come_first _ _))); [|reflexivity].
    intros n data [[= -> ->]|Hin%elem_of_nil]%elem_of_cons; [|done].
    by exists [("url", PyStr "")], no_form.
  - apply (proj1 (proj2 (catalog_errors_come_first _ _))). reflexivity.
Defined.

(** X10: [EMBEDDING_DIMENSIONS] has no default: when it is unset the constructor
    fails, and with a valid catalog dictionary the failure is the
    [TypeError] of [int(None)], raised before the API key is looked at. *)
Theorem embedding_dimensions_required (P : Platform) (arg : ConfigArg) :
  getenv P "EMBEDDING_DIMENSIONS" = None ->
  is_ok (Router_new P arg) = false
  /\ forall d, arg = CfgDict d ->
       is_ok (load_servers (default [] (mcpServers d)) ∅) = true ->
       exists msg, Router_new P arg = Raise (TypeError msg).
Proof.
  intros Hd. split.
  - destruct (Router_new P arg) as [r|e] eqn:E; [|done].
    apply Router_new_stages in E as (_ & _ & dims & _ & _ & H & _).
    by rewrite Hd in H.
  - intros d -> Hok. unfold Router_new. rewrite (bind_ok _ _ d eq_refl).
    destruct (load_servers (default [] (mcpServers d)) ∅) as [m|e]; [|done].
    rewrite (bind_ok _ _ m eq_refl), Hd. by eexists.
Qed.

Lemma embedding_dimensions_required_witness :
  is_ok (Router_new
           (platform (fun key => if String.eqb key "EMBEDDING_DIMENSIONS"
                                 then None else full_env key)
                     ["/data/index.json"] (Ok {| mcpServers := None |}))
           (CfgDict {| mcpServers := None |})) = false.
Proof.
  apply (proj1 (embedding_dimensions_required
                  (platform (fun key => if String.eqb key "EMBEDDING_DIMENSIONS"
                                        then None else full_env key)
                            ["/data/index.json"] (Ok {| mcpServers := None |}))
                  (CfgDict {| mcpServers := None |}) eq_refl)).
Defined.



(** X13: The data path: an empty [MCP_DATA_PATH] makes construction fail even if
    the file system would accept the empty path; with [MCP_DATA_PATH] unset
    a router is only constructed when the default file
    [PROJECT_ROOT/config/mcp_arg_<EMBEDDING_MODEL>_<ABSTRACT_MODEL>.json]
    exists, an unset model name being spelled [None]. *)
Theorem data_path_rules (P : Platform) (arg : ConfigArg) :
  (getenv P "MCP_DATA_PATH" = Some "" -> is_ok (Router_new P arg) = false)
  /\ (getenv P "MCP_DATA_PATH" = None ->
      forall r, Router_new P arg = Ok r ->
      path_exists P (PROJECT_ROOT P +:+ "/config/mcp_arg_"
                       +:+ default "None" (getenv P "EMBEDDING_MODEL") +:+ "_"
                       +:+ default "None" (getenv P "ABSTRACT_MODEL") +:+ ".json")
        = true).
Proof.
  split.
  - intros E. destruct (Router_new P arg) as [r|e] eqn:Hr; [|done].
    apply Router_new_stages in Hr as (_ & _ & ? & ? & ? & _ & _ & _ & _ & _ & Hne & _).
    unfold data_path in Hne. by rewrite E in Hne.
  - intros E r Hr.
    apply Router_new_stages in Hr as (_ & _ & ? & ? & ? & _ & _ & _ & _ & _ & _ & Hex & _).
    unfold data_path in Hex. rewrite E in Hex. simpl in Hex.
    unfold path_join, py_str in Hex.
    rewrite string_app_assoc in Hex. exact Hex.
Qed.

Lemma built_router_constructed :
  Router_new files_platform (CfgDict files_catalog) = Ok built_router.
Proof. vm_compute; reflexivity. Qed.

Lemma data_path_rules_witness :
  is_ok (Router_new (platform (fun key => if String.eqb key "MCP_DATA_PATH"
                                          then Some "" else full_env key)
                              [""] (Ok {| mcpServers := None |}))
                    (CfgDict files_catalog)) = false
  /\ path_exists default_path_platform
       "/app/config/mcp_arg_embed-small_abstract.json" = true.
Proof.
  split.
  - apply (proj1 (data_path_rules
                    (platform (fun key => if String.eqb key "MCP_DATA_PATH"
                                          then Some "" else full_env key)
                              [""] (Ok {| mcpServers := None |}))
                    (CfgDict files_catalog))).
    reflexivity.
  - apply (proj2 (data_path_rules default_path_platform (CfgDict files_catalog))
             eq_refl built_router).
    vm_compute; reflexivity.
Defined.

Lemma constructed_server_shape (P : Platform) (arg : ConfigArg)
    (r : Router.Router) (n : string) (srv : Server) :
  Router_new P arg = Ok r ->
  servers r !! n = Some srv ->
  exists f c, (n, PyDict f) ∈ default [] (mcpServers (Router.config r))
              /\ validate_fields f = Ok c
              /\ truthy (command c) || truthy (url c) = true
              /\ srv = Server_new n c.
Proof.
  intros (_ & Hload & _)%Router_new_stages E.
  destruct (load_servers_lookup _ _ _ Hload) as (_ & Hout & Hin).
  destruct (decide (n ∈ (default [] (mcpServers (Router.config r))).*1)) as [Hn|Hn].
  - destruct (Hin n Hn) as (data & c & Hc & Hd & Hm).
    destruct data as [| | | | |f]; try discriminate.
    apply ServerConfig_new_ok in Hd as [Hf Ht].
    exists f, c. split_and!; [done | done | done | congruence].
  - rewrite (Hout n Hn), lookup_empty in E. discriminate.
Qed.

(** X14: The servers of a constructed router are those named in its catalog,
    and only those; each carries its catalog key as name, the descriptor
    that the fields of a catalog dictionary of that name validate to, which
    has a command or a URL, no description and no tool list. *)
Theorem constructed_servers (P : Platform) (arg : ConfigArg) (r : Router.Router) :
  Router_new P arg = Ok r ->
  (forall n, is_Some (servers r !! n)
             <-> n ∈ (default [] (mcpServers (Router.config r))).*1)
  /\ (forall n srv, servers r !! n = Some srv ->
        name srv = n
        /\ description srv = None
        /\ tools srv = None
        /\ (exists f, (n, PyDict f) ∈ default [] (mcpServers (Router.config r))
                      /\ validate_fields f = Ok (Schemas.config srv))
        /\ truthy (command (Schemas.config srv)) || truthy (url (Schemas.config srv))
           = true).
Proof.
  intros Hr.
  pose proof (fun n srv => constructed_server_shape P arg r n srv Hr) as Hsrv.
  apply Router_new_stages in Hr as (_ & Hload & _).
  destruct (load_servers_lookup _ _ _ Hload) as (_ & _ & Hin).
  split.
  - intros n. split.
    + intros [srv E]. destruct (Hsrv n srv E) as (f & c & Hc & _).
      apply list_elem_of_fmap. by exists (n, PyDict f).
    + intros Hn. destruct (Hin n Hn) as (data & c & _ & _ & Hm). by eexists.
  - intros n srv E. destruct (Hsrv n srv E) as (f & c & Hc & Hf & Ht & ->). simpl.
    split_and!; try done. by exists f.
Qed.

Lemma constructed_servers_witness :
  (is_Some (servers built_router !! "files")
   <-> "files" ∈ (default [] (mcpServers (Router.config built_router))).*1)
  /\ tools (Server_new "files" (launch "files-server")) = None.
Proof.
  destruct (constructed_servers files_platform (CfgDict files_catalog)
              built_router built_router_constructed) as [H1 H2].
  split; [exact (H1 "files")|].
  exact (proj1 (proj2 (proj2 (H2 "files" _ (lookup_singleton_eq _ _))))).
Defined.

(** X15: The catalog loads exactly when every descriptor is a dictionary
    whose fields validate (strings for [command] and [url], a list of
    strings for [args], dictionaries for [env] and [headers]) to a
    descriptor that has a command or a URL; the accumulator plays no part
    in it. *)
Theorem catalog_loads_iff_descriptors_valid (items : list (string * pyval))
    (acc : gmap string Server) :
  is_ok (load_servers items acc) = true
  <-> forall n data, (n, data) ∈ items ->
        exists f cfg, data = PyDict f /\ validate_fields f = Ok cfg
                      /\ truthy (command cfg) || truthy (url cfg) = true.
Proof.
  split.
  - destruct (load_servers items acc) as [m|e] eqn:E; [|done]. intros _ n data Hin.
    apply ServerConfig_new_accepts.
    by apply (proj1 (load_servers_lookup _ _ _ E) n).
  - intros H. apply load_servers_valid. intros n data Hin.
    apply ServerConfig_new_accepts. by apply (H n).
Qed.

(** X16: A registry initialised from the servers of a freshly constructed
    router exposes nothing: the constructor stores no tool list, so every
    server of the catalog gets the empty set. *)
Theorem registry_of_new_router_is_empty (P : Platform) (arg : ConfigArg)
    (r : Router.Router) :
  Router_new P arg = Ok r ->
  (forall s t, is_exposed (initialize_from_servers ToolRegistry.init (servers r)) s t
               = false)
  /\ (forall (reg : registry) s, is_Some (servers r !! s) ->
        initialize_from_servers reg (servers r) !! s = Some ∅).
Proof.
  intros Hr.
  assert (forall (reg : registry) s srv, servers r !! s = Some srv ->
            initialize_from_servers reg (servers r) !! s = Some ∅) as Hempty.
  { intros reg s srv E. rewrite lookup_initialize, E. f_equal.
    by destruct (constructed_server_shape P arg r s srv Hr E) as (f & c & _ & _ & _ & ->). }
  split.
  - intros s t. apply is_exposed_false.
    destruct (servers r !! s) as [srv|] eqn:E.
    + rewrite (Hempty _ s srv E). simpl. set_solver.
    + rewrite lookup_initialize, E. unfold ToolRegistry.init.
      rewrite lookup_empty. simpl. set_solver.
  - intros reg s [srv E]. by apply (Hempty reg s srv).
Qed.

Lemma registry_of_new_router_is_empty_witness :
  is_exposed (initialize_from_servers ToolRegistry.init (servers built_router))
    "files" "read" = false.
Proof.
  exact (proj1 (registry_of_new_router_is_empty files_platform
                  (CfgDict files_catalog) built_router built_router_constructed)
           "files" "read").
Defined.

End ConstructionProperties.

(** ** One call of [call_tool] *)

Section CallFacts.
Import Schemas ToolRegistry Router Dispatch Scenario.

(** The four ways a call can go. *)
Lemma call_tool_cases (self : Router.Router) (C : MCPConnection)
    (s t : string) (params : option pydict) (timeout : option Z) :
  (servers self !! s = None
   /\ call_tool self C s t params timeout =
        ([LockAcquire; LockRelease], Raises (ValueError (unknown_server_message s))))
  \/ exists cfg, servers self !! s = Some cfg /\
       ((aenter C cfg = Opened
         /\ call_tool self C s t params timeout =
              ([LockAcquire; ConnOpen s;
                Invoke s t (params_or_empty params) (default DEFAULT_TIMEOUT timeout);
                ConnClose s; LockRelease],
               match wait_for_call_tool C cfg t (params_or_empty params)
                       (default DEFAULT_TIMEOUT timeout) with
               | Ok r => Returns r
               | Raise TimeoutError => outcome_of (timed_out_result t s)
               | Raise e => Raises e
               end))
        \/ (exists e, aenter C cfg = OpenRaises e
            /\ call_tool self C s t params timeout =
                 ([LockAcquire; ConnOpen s; ConnOpenFailed s; LockRelease], Raises e))
        \/ (aenter C cfg = OpenPending
            /\ call_tool self C s t params timeout = ([LockAcquire; ConnOpen s], Pending))).
Proof.
  destruct (servers self !! s) as [cfg|] eqn:Hs.
  - right. exists cfg. split; [done|]. destruct (aenter C cfg) as [|e|] eqn:Ho.
    + left. split; [done|]. by apply call_tool_connected.
    + right; left. exists e. split; [done|]. by apply (call_tool_open_raises _ _ _ _ _ _ cfg).
    + right; right. split; [done|]. by apply (call_tool_open_pending _ _ _ _ _ _ cfg).
  - left. split; [done|]. by apply call_tool_unknown.
Qed.

Lemma connected_outcome_not_pending (w : result CallToolResult) (t s : string) :
  match w with
  | Ok r => Returns r
  | Raise TimeoutError => outcome_of (timed_out_result t s)
  | Raise e => Raises e
  end ≠ Pending.
Proof. by destruct w as [r|[]]. Qed.

End CallFacts.

Section CallProperties.
Import Schemas ToolRegistry Router Dispatch Scenario.

(** X17: Whenever [call_tool] returns or raises, it has released what it took:
    its trace starts by acquiring the lock and ends by releasing it, the
    lock is not held and no connection is open at the end. *)
Theorem call_tool_leaves_nothing_held (self : Router.Router) (C : MCPConnection)
    (s t : string) (params : option pydict) (timeout : option Z) :
  snd (call_tool self C s t params timeout) ≠ Pending ->
  head (fst (call_tool self C s t params timeout)) = Some LockAcquire
  /\ last (fst (call_tool self C s t params timeout)) = Some LockRelease
  /\ holds_lock (fst (call_tool self C s t params timeout)) = false
  /\ connection_open (fst (call_tool self C s t params timeout)) = false.
Proof.
  destruct (call_tool_cases self C s t params timeout)
    as [[_ ->]|(cfg & _ & [[_ ->]|[(e & _ & ->)|[_ ->]]])]; simpl; try done.
Qed.

Lemma call_tool_leaves_nothing_held_witness :
  holds_lock (fst (call_tool files_router slow_connection "files" "read" None None))
    = false
  /\ connection_open
       (fst (call_tool files_router slow_connection "files" "read" None None)) = false.
Proof.
  destruct (call_tool_leaves_nothing_held files_router slow_connection
              "files" "read" None None) as (_ & _ & H1 & H2).
  - vm_compute. discriminate.
  - split; [exact H1 | exact H2].
Defined.

(** X19: An exception of the remote call other than a timeout is not caught: the
    connection is closed, the lock released, and the exception raised to
    the caller. *)
Theorem call_tool_remote_error_propagates (self : Router.Router)
    (C : MCPConnection) (s t : string) (params : option pydict)
    (timeout : option Z) (cfg : Server) (e : exn) :
  servers self !! s = Some cfg ->
  aenter C cfg = Opened ->
  wait_for_call_tool C cfg t (params_or_empty params)
    (default DEFAULT_TIMEOUT timeout) = Raise e ->
  e ≠ TimeoutError ->
  call_tool self C s t params timeout =
    ([LockAcquire; ConnOpen s;
      Invoke s t (params_or_empty params) (default DEFAULT_TIMEOUT timeout);
      ConnClose s; LockRelease],
     Raises e).
Proof.
  intros Hs Ho Hw Hne. rewrite (call_tool_connected _ _ _ _ _ _ cfg Hs Ho), Hw.
  by destruct e.
Qed.

Lemma call_tool_remote_error_propagates_witness :
  call_tool files_router
    {| aenter := fun _ => Opened;
       wait_for_call_tool := fun _ _ _ _ => Raise (RemoteError "disk full") |}
    "files" "write" None (Some 10%Z) =
    ([LockAcquire; ConnOpen "files"; Invoke "files" "write" [] 10;
      ConnClose "files"; LockRelease],
     Raises (RemoteError "disk full")).
Proof.
  apply (call_tool_remote_error_propagates files_router _ "files" "write" None
           (Some 10%Z) files_server (RemoteError "disk full")); try reflexivity.
  discriminate.
Defined.

(** X20: An exception raised while the connection is being opened, a
    [TimeoutError] included, is raised to the caller after the lock is
    released; the remote call is not attempted and no timeout outcome is
    built. *)
Theorem call_tool_open_failure (self : Router.Router) (C : MCPConnection)
    (s t : string) (params : option pydict) (timeout : option Z)
    (cfg : Server) (e : exn) :
  servers self !! s = Some cfg ->
  aenter C cfg = OpenRaises e ->
  call_tool self C s t params timeout =
    ([LockAcquire; ConnOpen s; ConnOpenFailed s; LockRelease], Raises e)
  /\ forall s' t' p' d', Invoke s' t' p' d' ∉ fst (call_tool self C s t params timeout).
Proof.
  intros Hs Ho. rewrite (call_tool_open_raises _ _ _ _ _ _ cfg e Hs Ho).
  split; [done|]. intros s' t' p' d'. simpl. set_solver.
Qed.

Lemma call_tool_open_failure_witness :
  call_tool files_router
    {| aenter := fun _ => OpenRaises TimeoutError;
       wait_for_call_tool := fun _ _ _ _ => Ok payload |}
    "files" "read" None None =
    ([LockAcquire; ConnOpen "files"; ConnOpenFailed "files"; LockRelease],
     Raises TimeoutError).
Proof.
  apply (call_tool_open_failure files_router _ "files" "read" None None
           files_server TimeoutError); reflexivity.
Defined.

(** X21: A call touches nothing but its own server and tool: every event of its
    trace is the lock, the connection of the named server, or the one
    invocation of the named tool with the given parameters (none when left
    out or empty) and deadline (300 when left out); no event occurs twice. *)
Theorem call_tool_events (self : Router.Router) (C : MCPConnection)
    (s t : string) (params : option pydict) (timeout : option Z) :
  NoDup (fst (call_tool self C s t params timeout))
  /\ forall e, e ∈ fst (call_tool self C s t params timeout) ->
       e ∈ [LockAcquire; LockRelease; ConnOpen s; ConnOpenFailed s; ConnClose s;
            Invoke s t (default [] params) (default 300%Z timeout)].
Proof.
  destruct (call_tool_cases self C s t params timeout)
    as [[_ ->]|(cfg & _ & [[_ ->]|[(e & _ & ->)|[_ ->]]])]; simpl;
    (split; [repeat (apply NoDup_cons; split; [set_solver|]); apply NoDup_nil_2
            | intros e0 He0; set_solver]).
Qed.

(** X22: What [call_tool] returns is either the result of the remote call,
    unchanged, or the timeout outcome it builds itself, and it returns only
    for a catalog server whose connection opened. *)
Theorem call_tool_returned_value (self : Router.Router) (C : MCPConnection)
    (s t : string) (params : option pydict) (timeout : option Z)
    (r : CallToolResult) :
  snd (call_tool self C s t params timeout) = Returns r ->
  exists cfg, servers self !! s = Some cfg /\ aenter C cfg = Opened
    /\ (wait_for_call_tool C cfg t (params_or_empty params)
          (default DEFAULT_TIMEOUT timeout) = Ok r
        \/ (wait_for_call_tool C cfg t (params_or_empty params)
              (default DEFAULT_TIMEOUT timeout) = Raise TimeoutError
            /\ timed_out_result t s = Ok r)).
Proof.
  destruct (call_tool_cases self C s t params timeout)
    as [[_ ->]|(cfg & Hs & [[Ho ->]|[(e & _ & ->)|[_ ->]]])]; simpl; try done.
  intros H. exists cfg. split_and!; try done.
  destruct (wait_for_call_tool _ _ _ _ _) as [r'|[]]; simplify_eq; auto.
Qed.

Lemma call_tool_returned_value_witness :
  exists cfg, servers files_router !! "files" = Some cfg
    /\ aenter stub_connection cfg = Opened
    /\ (wait_for_call_tool stub_connection cfg "read" (params_or_empty None)
          (default DEFAULT_TIMEOUT None) = Ok payload
        \/ (wait_for_call_tool stub_connection cfg "read" (params_or_empty None)
              (default DEFAULT_TIMEOUT None) = Raise TimeoutError
            /\ timed_out_result "read" "files" = Ok payload)).
Proof.
  apply (call_tool_returned_value files_router stub_connection "files" "read"
           None None payload).
  vm_compute; reflexivity.
Defined.

(** X23: What [call_tool] raises is the [ValueError] of an unknown server, the
    exception of a failed opening, the exception of the remote call, or,
    when the remote call timed out, the exception raised while the timeout
    outcome is built; the [TimeoutError] of the remote call itself is never
    raised. *)
Theorem call_tool_raised_exception (self : Router.Router) (C : MCPConnection)
    (s t : string) (params : option pydict) (timeout : option Z) (e : exn) :
  snd (call_tool self C s t params timeout) = Raises e ->
  (servers self !! s = None /\ e = ValueError (unknown_server_message s))
  \/ exists cfg, servers self !! s = Some cfg
       /\ (aenter C cfg = OpenRaises e
           \/ (aenter C cfg = Opened
               /\ wait_for_call_tool C cfg t (params_or_empty params)
                    (default DEFAULT_TIMEOUT timeout) = Raise e
               /\ e ≠ TimeoutError)
           \/ (aenter C cfg = Opened
               /\ wait_for_call_tool C cfg t (params_or_empty params)
                    (default DEFAULT_TIMEOUT timeout) = Raise TimeoutError
               /\ timed_out_result t s = Raise e
               /\ e = ValidationError "type: Field required")).
Proof.
  destruct (call_tool_cases self C s t params timeout)
    as [[Hs ->]|(cfg & Hs & [[Ho ->]|[(e' & Ho & ->)|[_ ->]]])]; simpl; try done.
  - intros [= <-]. by left.
  - intros H. right. exists cfg. split; [done|].
    destruct (wait_for_call_tool _ _ _ _ _) as [r'|[]]; simplify_eq;
      try (right; left; done).
    right; right. done.
  - intros [= <-]. right. exists cfg. auto.
Qed.

Lemma call_tool_raised_exception_witness :
  (servers files_router !! "files" = None
   /\ ValidationError "type: Field required"
      = ValueError (unknown_server_message "files"))
  \/ exists cfg, servers files_router !! "files" = Some cfg
       /\ (aenter slow_connection cfg
             = OpenRaises (ValidationError "type: Field required")
           \/ (aenter slow_connection cfg = Opened
               /\ wait_for_call_tool slow_connection cfg "read" (params_or_empty None)
                    (default DEFAULT_TIMEOUT None)
                  = Raise (ValidationError "type: Field required")
               /\ ValidationError "type: Field required" ≠ TimeoutError)
           \/ (aenter slow_connection cfg = Opened
               /\ wait_for_call_tool slow_connection cfg "read" (params_or_empty None)
                    (default DEFAULT_TIMEOUT None) = Raise TimeoutError
               /\ timed_out_result "read" "files"
                  = Raise (ValidationError "type: Field required")
               /\ ValidationError "type: Field required"
                  = ValidationError "type: Field required")).
Proof.
  apply (call_tool_raised_exception files_router slow_connection "files" "read"
           None None).
  vm_compute; reflexivity.
Defined.

(** X24: Using the router as an asynchronous context manager changes nothing:
    entering hands the router itself to the body, and leaving performs no
    event, so the block behaves as its body alone. *)
Theorem with_router_is_transparent {A} (self : Router.Router)
    (body : Router.Router -> run A) :
  with_router self body = body self.
Proof.
  unfold with_router, Router_aenter, Router_aexit, aclose.
  destruct (body self) as [tr [a|e|]]; simpl; by rewrite ?app_nil_r.
Qed.

(** X25: A router constructed from a catalog dictionary dispatches to the
    servers named in it and to no other: a call to any other name raises
    the unknown-server error without opening a connection, a call to a
    catalog name starts by taking the lock and entering the connection of
    that server. *)
Theorem constructed_router_dispatch (P : Platform) (d : ConfigDoc)
    (r : Router.Router) (C : MCPConnection) (s t : string)
    (params : option pydict) (timeout : option Z) :
  Router_new P (CfgDict d) = Ok r ->
  (s ∉ (default [] (mcpServers d)).*1 ->
   call_tool r C s t params timeout =
     ([LockAcquire; LockRelease], Raises (ValueError (unknown_server_message s))))
  /\ (s ∈ (default [] (mcpServers d)).*1 ->
      exists rest, fst (call_tool r C s t params timeout)
                   = LockAcquire :: ConnOpen s :: rest).
Proof.
  intros (Hcfg & Hload & _)%Router_new_stages. subst d.
  destruct (load_servers_lookup _ _ _ Hload) as (_ & Hout & Hin). split.
  - intros Hn. apply call_tool_unknown. by rewrite (Hout s Hn), lookup_empty.
  - intros Hn. destruct (Hin s Hn) as (data & c & _ & _ & Hm).
    destruct (call_tool_cases r C s t params timeout)
      as [[Hs _]|(cfg & _ & [[_ ->]|[(e & _ & ->)|[_ ->]]])]; simpl;
      [congruence | by eexists..].
Qed.

Lemma constructed_router_dispatch_witness :
  call_tool built_router stub_connection "mail" "send" None None =
    ([LockAcquire; LockRelease],
     Raises (ValueError (unknown_server_message "mail")))
  /\ exists rest, fst (call_tool built_router stub_connection "files" "read" None None)
                  = LockAcquire :: ConnOpen "files" :: rest.
Proof.
  destruct (constructed_router_dispatch files_platform files_catalog built_router
              stub_connection "mail" "send" None None built_router_constructed)
    as [H1 _].
  destruct (constructed_router_dispatch files_platform files_catalog built_router
              stub_connection "files" "read" None None built_router_constructed)
    as [_ H2].
  split.
  - apply H1. simpl. set_solver.
  - apply H2. simpl. set_solver.
Defined.

End CallProperties.

(** ** Executions of concurrent callers *)

Section ExecutionFacts.
Import Schemas Router Dispatch Scenario.

Lemma phase_run_concat (l1 : list event) : forall p l2,
  phase_run p (l1 ++ l2) = phase_run p l1 ≫= fun p' => phase_run p' l2.
Proof.
  induction l1 as [|x l1 IH]; intros p l2; simpl; [done|].
  destruct (phase_step p x); [apply IH | done].
Qed.

(** Without a connection that hangs, every trace runs to the end. *)
Lemma call_tool_finishes (self : Router.Router) (C : MCPConnection)
    (s t : string) (params : option pydict) (timeout : option Z) :
  (forall cfg, aenter C cfg ≠ OpenPending) ->
  phase_run Idle (fst (call_tool self C s t params timeout)) = Some Finished.
Proof.
  intros Hnh. destruct (call_tool_cases self C s t params timeout)
    as [[_ ->]|(cfg & _ & [[_ ->]|[(e & _ & ->)|[Ho _]]])]; try done.
  by destruct (Hnh cfg).
Qed.

Lemma call_tool_trace_length (self : Router.Router) (C : MCPConnection)
    (s t : string) (params : option pydict) (timeout : option Z) :
  (length (fst (call_tool self C s t params timeout)) ≤ 5)%nat.
Proof.
  destruct (call_tool_cases self C s t params timeout)
    as [[_ ->]|(cfg & _ & [[_ ->]|[(e & _ & ->)|[_ ->]]])]; simpl; lia.
Qed.

(** Each task performs the events of its own call, in order. *)
Lemma reachable_tasks (self : Router.Router) (C : MCPConnection)
    (invs : list invocation) (σ : system) :
  reachable self C invs σ ->
  length (tasks σ) = length invs
  /\ forall i t, tasks σ !! i = Some t ->
       exists inv, invs !! i = Some inv
         /\ (done t ++ todo t)%list
            = fst (call_tool self C (inv_server inv) (inv_tool inv)
                     (inv_params inv) (inv_timeout inv)).
Proof.
  unfold reachable. revert σ. apply rtc_ind_r.
  - simpl. split; [by rewrite length_fmap|].
    intros i t H. apply list_lookup_fmap_Some in H as (inv & -> & Hinv).
    by exists inv.
  - intros σ1 σ2 _ Hstep [Hlen IH]. destruct Hstep as [σ i d e rest Hi Hen].
    simpl. split; [by rewrite length_insert|].
    intros j t H.
    apply insert_lookup_cases in H as [[-> ->]|[Hne H]];
      [| by apply IH | by eapply lookup_lt_Some].
    destruct (IH i _ Hi) as (inv & Hinv & Htr). exists inv. split; [done|].
    simpl in *. by rewrite <- app_assoc.
Qed.

(** A held lock has a holder. *)
Lemma locked_has_holder (self : Router.Router) (C : MCPConnection)
    (invs : list invocation) (σ : system) :
  reachable self C invs σ ->
  locked σ = true ->
  exists i t, tasks σ !! i = Some t /\ holds_lock (done t) = true.
Proof.
  unfold reachable. revert σ.
  apply (rtc_ind_r (fun σ => locked σ = true ->
           exists i t, tasks σ !! i = Some t /\ holds_lock (done t) = true)
           (initial self C invs)); [done|].
  intros σ1 σ2 _ Hstep IH. destruct Hstep as [σ i d e rest Hi Hen]. simpl.
  assert (i < length (tasks σ))%nat as Hlt by (by eapply lookup_lt_Some).
  intros Hl.
  assert (holds_lock (d ++ [e]) = true \/
          (locked σ = true /\ holds_lock (d ++ [e]) = holds_lock d)) as [Hnew|[Hold Hsame]].
  { rewrite holds_lock_snoc. destruct e; simpl in *; auto; discriminate. }
  - exists i, {| done := (d ++ [e])%list; todo := rest |}.
    split; [by apply list_lookup_insert_eq | done].
  - destruct (IH Hold) as (j & t & Hj & Hh).
    destruct (decide (j = i)) as [->|Hne].
    + exists i, {| done := (d ++ [e])%list; todo := rest |}.
      split; [by apply list_lookup_insert_eq|]. simpl. rewrite Hsame.
      rewrite Hi in Hj. by simplify_eq.
    + exists j, t. split; [|done]. by rewrite list_lookup_insert_ne.
Qed.

(** A task that holds the lock has a next event, and that event is not an
    acquisition, provided no connection hangs. *)
Lemma holder_can_move (self : Router.Router) (C : MCPConnection)
    (invs : list invocation) (σ : system) (i : nat) (t : task) :
  (forall cfg, aenter C cfg ≠ OpenPending) ->
  reachable self C invs σ ->
  tasks σ !! i = Some t ->
  holds_lock (done t) = true ->
  exists e rest, todo t = e :: rest /\ e ≠ LockAcquire.
Proof.
  intros Hnh Hreach Hi Hh.
  destruct (reachable_invariant _ _ _ _ Hreach) as [Hph _ _].
  destruct (Hph i t Hi) as (p & Hp & _).
  destruct (proj2 (reachable_tasks _ _ _ _ Hreach) i t Hi) as (inv & _ & Htr).
  pose proof (call_tool_finishes self C (inv_server inv) (inv_tool inv)
                (inv_params inv) (inv_timeout inv) Hnh) as Hfin.
  rewrite <- Htr, phase_run_concat, Hp in Hfin. simpl in Hfin.
  destruct (phase_run_observed _ _ _ Hp) as [Hl _].
  unfold holds_lock in Hh. simpl in Hl. rewrite Hl in Hh.
  destruct (todo t) as [|e rest]; simpl in Hfin.
  - by simplify_eq.
  - exists e, rest. split; [done|]. intros ->. by destruct p.
Qed.

Lemma remaining_insert (l : list task) : forall i d e rest t',
  l !! i = Some {| done := d; todo := e :: rest |} ->
  todo t' = rest ->
  (sum_list (length ∘ todo <$> <[i := t']> l) + 1
   = sum_list (length ∘ todo <$> l))%nat.
Proof.
  induction l as [|x l IH]; intros i d e rest t' Hi Ht; [done|].
  destruct i as [|i].
  - simpl in *. simplify_eq. simpl. lia.
  - simpl in Hi. pose proof (IH i d e rest t' Hi Ht) as IH'.
    simpl. unfold fmap in IH'. lia.
Qed.

Lemma remaining_initial (self : Router.Router) (C : MCPConnection)
    (invs : list invocation) :
  (remaining (initial self C invs) ≤ 5 * length invs)%nat.
Proof.
  unfold remaining, initial. cbn [tasks].
  induction invs as [|inv invs IH]; [simpl; lia|].
  rewrite !fmap_cons, length_cons. cbn [sum_list sum_list_with].
  pose proof (call_tool_trace_length self C (inv_server inv) (inv_tool inv)
                (inv_params inv) (inv_timeout inv)) as Hl.
  unfold compose at 1. unfold spawn at 1. cbn [todo].
  unfold id in *. lia.
Qed.

End ExecutionFacts.

Section ExecutionProperties.
Import Schemas Router Dispatch Scenario.

Lemma schedule_nsteps (order : list nat) : forall σ σ',
  schedule σ order = Some σ' -> nsteps step (length order) σ σ'.
Proof.
  induction order as [|i order IH]; intros σ σ' H; simpl in H.
  - injection H as <-. apply nsteps_O.
  - destruct (perform σ i) as [σ1|] eqn:Hp; [|discriminate].
    eapply nsteps_l; [exact (perform_step _ _ i Hp) | by apply IH].
Qed.

Lemma first_connected_reachable :
  reachable files_router stub_connection [read_x; read_x] first_connected.
Proof. apply (schedule_rtc [0; 0]). vm_compute; reflexivity. Qed.

Lemma stub_never_hangs : forall cfg, aenter stub_connection cfg ≠ OpenPending.
Proof. intros cfg. discriminate. Qed.

Lemma first_stuck_reachable :
  reachable files_router stuck_connection [read_x; read_x] first_stuck.
Proof. apply (schedule_rtc [0; 0]). vm_compute; reflexivity. Qed.

(** X18: A caller that holds the lock and has no event left is stuck entering
    a connection that never finishes opening, the one phase the timeout
    does not cover; the lock then stays held and no caller of that router
    can take a step any more, so every call that has not yet acquired the
    lock waits forever. *)
Theorem hung_call_blocks_everyone (self : Router.Router) (C : MCPConnection)
    (invs : list invocation) (σ : system) (i : nat) (t : task) :
  reachable self C invs σ ->
  tasks σ !! i = Some t ->
  todo t = [] ->
  holds_lock (done t) = true ->
  (exists inv cfg, invs !! i = Some inv
     /\ servers self !! inv_server inv = Some cfg
     /\ aenter C cfg = OpenPending)
  /\ locked σ = true
  /\ forall σ', ~ step σ σ'.
Proof.
  intros Hreach Hi Htodo Hh.
  destruct (reachable_invariant _ _ _ _ Hreach) as [Hph Hfree Hexcl].
  assert (locked σ = true) as Hl.
  { destruct (locked σ) eqn:Hl; [done|].
    rewrite (Hfree eq_refl i t Hi) in Hh. discriminate. }
  split_and!; [|done|].
  - destruct (proj2 (reachable_tasks _ _ _ _ Hreach) i t Hi) as (inv & Hinv & Htr).
    rewrite Htodo, app_nil_r in Htr. rewrite Htr in Hh. exists inv.
    destruct (call_tool_cases self C (inv_server inv) (inv_tool inv)
                (inv_params inv) (inv_timeout inv))
      as [[_ E]|(cfg & Hs & [[_ E]|[(e & _ & E)|[Ho _]]])];
      try (rewrite E in Hh; discriminate Hh).
    by exists cfg.
  - intros σ' Hstep. destruct Hstep as [σ j d e rest Hj Hen].
    destruct (decide (j = i)) as [->|Hne].
    + rewrite Hi in Hj. injection Hj as ->. discriminate Htodo.
    + pose proof (Hexcl i j _ _ (not_eq_sym Hne) Hi Hj Hh) as Hnh. simpl in Hnh.
      destruct (Hph j _ Hj) as (p & Hp & Hrest). simpl in Hp, Hrest.
      destruct (phase_run_observed _ _ _ Hp) as [Hobs _].
      unfold holds_lock in Hnh. simpl in Hobs. rewrite Hobs in Hnh.
      destruct (phase_step p e) as [p'|] eqn:Hpe; [|by destruct Hrest].
      destruct p, e; simpl in *; try discriminate.
      rewrite Hl in Hen. discriminate.
Qed.

Lemma hung_call_blocks_everyone_witness :
  locked first_stuck = true /\ forall σ', ~ step first_stuck σ'.
Proof.
  exact (proj2 (hung_call_blocks_everyone files_router stuck_connection
                  [read_x; read_x] first_stuck 0 _ first_stuck_reachable
                  eq_refl eq_refl eq_refl)).
Defined.

(** X27: The lock flag tells the truth: in every reachable state the lock is
    marked as held exactly when some task has acquired it and not yet
    released it. *)
Theorem lock_flag_is_accurate (self : Router.Router) (C : MCPConnection)
    (invs : list invocation) (σ : system) :
  reachable self C invs σ ->
  locked σ = true
  <-> exists i t, tasks σ !! i = Some t /\ holds_lock (done t) = true.
Proof.
  intros Hreach. split; [by apply (locked_has_holder self C invs)|].
  intros (i & t & Hi & Hh).
  destruct (reachable_invariant _ _ _ _ Hreach) as [_ Hfree _].
  destruct (locked σ) eqn:Hl; [done|].
  rewrite (Hfree eq_refl i t Hi) in Hh. discriminate.
Qed.

Lemma lock_flag_is_accurate_witness :
  locked first_connected = true
  <-> exists i t, tasks first_connected !! i = Some t /\ holds_lock (done t) = true.
Proof.
  exact (lock_flag_is_accurate files_router stub_connection [read_x; read_x]
           first_connected first_connected_reachable).
Defined.

(** X28: No deadlock: when no connection hangs while opening, a reachable state
    can take a step exactly when some call has events left, and once every
    call has run to its end the lock is free. *)
Theorem no_deadlock (self : Router.Router) (C : MCPConnection)
    (invs : list invocation) (σ : system) :
  (forall cfg, aenter C cfg ≠ OpenPending) ->
  reachable self C invs σ ->
  ((exists σ', step σ σ')
   <-> exists i t, tasks σ !! i = Some t /\ todo t ≠ [])
  /\ ((forall i t, tasks σ !! i = Some t -> todo t = []) -> locked σ = false).
Proof.
  intros Hnh Hreach.
  assert (locked σ = true ->
          exists i d e rest, tasks σ !! i = Some {| done := d; todo := e :: rest |}
                             /\ e ≠ LockAcquire) as Hholder.
  { intros Hl. destruct (locked_has_holder _ _ _ _ Hreach Hl) as (i & t & Hi & Hh).
    destruct (holder_can_move _ _ _ _ i t Hnh Hreach Hi Hh) as (e & rest & Ht & He).
    exists i, (done t), e, rest. split; [|done]. rewrite Hi. f_equal.
    destruct t; simpl in *; by subst. }
  split; [split|].
  - intros [σ' Hstep]. destruct Hstep as [σ i d e rest Hi _].
    exists i, {| done := d; todo := e :: rest |}. by split.
  - intros (i & t & Hi & Hne). destruct (locked σ) eqn:Hl.
    + destruct (Hholder eq_refl) as (j & d & e & rest & Hj & He).
      eexists. apply (step_event σ j d e rest Hj). by destruct e.
    + destruct t as [d [|e rest]]; [done|].
      eexists. apply (step_event σ i d e rest Hi). rewrite Hl. by destruct e.
  - intros Hall. destruct (locked σ) eqn:Hl; [|done].
    destruct (Hholder eq_refl) as (j & d & e & rest & Hj & _).
    by specialize (Hall j _ Hj).
Qed.

Lemma no_deadlock_witness :
  (exists σ', step first_connected σ')
  <-> exists i t, tasks first_connected !! i = Some t /\ todo t ≠ [].
Proof.
  exact (proj1 (no_deadlock files_router stub_connection [read_x; read_x]
                  first_connected stub_never_hangs first_connected_reachable)).
Defined.

(** X29: Every step performs one event of one call, so an execution of [n]
    steps has used up [n] of the events there were, and no execution of
    the calls in [invs] takes more than five steps per call. *)
Theorem executions_are_bounded (self : Router.Router) (C : MCPConnection)
    (invs : list invocation) (σ : system) (n : nat) :
  nsteps step n (initial self C invs) σ ->
  (n + remaining σ = remaining (initial self C invs))%nat
  /\ (n ≤ 5 * length invs)%nat.
Proof.
  intros H.
  assert (forall σ0 σ1 k, nsteps step k σ0 σ1 ->
            (k + remaining σ1 = remaining σ0)%nat) as Hcount.
  { intros σ0 σ1 k Hk. induction Hk as [|k x y z Hstep _ IH]; [done|].
    destruct Hstep as [x i d e rest Hi _]. unfold remaining in *. simpl in *.
    pose proof (remaining_insert (tasks x) i d e rest
                  {| done := (d ++ [e])%list; todo := rest |} Hi eq_refl).
    lia. }
  pose proof (Hcount _ _ _ H). pose proof (remaining_initial self C invs).
  split; [done | lia].
Qed.

Lemma executions_are_bounded_witness :
  (2 + remaining first_connected = remaining two_callers)%nat
  /\ (2 ≤ 5 * 2)%nat.
Proof.
  apply (executions_are_bounded files_router stub_connection [read_x; read_x]
           first_connected 2).
  apply (schedule_nsteps [0; 0]). vm_compute; reflexivity.
Defined.

End ExecutionProperties.
